(** * SMLP masked-language model: architecture presets, head registration
      and state-dict upgrade

    A shallow embedding of [src/architectures/NLU_model.py]:
    - the architecture presets ([base_architecture] and its descendants),
      which fill in an argparse namespace with [getattr] defaults;
    - [SMLP_MLM_Model.register_classification_head];
    - [SMLP_MLM_Model.upgrade_state_dict_named];
    - [SMLP_MLM_Model.forward] and the two [forward] methods it calls.

    The numeric kernels of torch and the upgrade of the fairseq parent class
    are external: they appear as section variables. The definitions come
    first, module by module; the facts about them follow. *)

From Stdlib Require Import QArith Ascii String.
From stdpp Require Import base option list gmap strings.

Open Scope string_scope.
Open Scope list_scope.

(* ===================================================================== *)
(** * Architecture presets *)
(* ===================================================================== *)

Module Arch.

(** The values an option of the namespace holds. A float is the rational
    its decimal literal denotes; the presets never compute with it. *)
Inductive Value : Type :=
  | VNone
  | VBool (b : bool)
  | VInt (n : Z)
  | VFloat (q : Q)
  | VStr (s : string).

(** [args], an [argparse.Namespace]: attribute name to value. *)
Abbreviation Namespace := (gmap string Value).

(** [getattr(args, name, default)] *)
Definition getattr (args : Namespace) (name : string) (dflt : Value) : Value :=
  match args !! name with
  | Some v => v
  | None => dflt
  end.

(** [args.name = v] *)
Definition setattr (name : string) (v : Value) (args : Namespace) : Namespace :=
  <[name := v]> args.

(** One line of a preset: [args.dst = getattr(args, src, d)] *)
Definition assign (dst src : string) (d : Value) (args : Namespace) : Namespace :=
  setattr dst (getattr args src d) args.

Definition base_architecture (args : Namespace) : Namespace :=
  let args := assign "encoder_layers" "encoder_layers" (VInt 12) args in
  let args := assign "encoder_embed_dim" "encoder_embed_dim" (VInt 768) args in
  let args := assign "encoder_attention_heads" "encoder_attention_heads" (VInt 12) args in
  let args := assign "activation_fn" "activation_fn" (VStr "gelu") args in
  let args := assign "pooler_activation_fn" "pooler_activation_fn" (VStr "tanh") args in
  let args := assign "dropout" "dropout" (VFloat (1 # 10)) args in
  let args := assign "pooler_dropout" "pooler_dropout" (VFloat 0) args in
  let args := assign "encoder_layers_to_keep" "encoder_layers_to_keep" VNone args in
  let args := assign "encoder_layerdrop" "encoder_layerdrop" (VFloat 0) args in
  let args := assign "spectral_norm_classification_head" "spectral_nrom_classification_head" (VBool false) args in
  let args := assign "share_encoder_input_output_embed" "share_encoder_input_output_embed" (VBool true) args in
  let args := assign "encoder_learned_pos" "encoder_learned_pos" (VBool false) args in
  let args := assign "no_token_positional_embeddings" "no_token_positional_embeddings" (VBool false) args in
  let args := assign "sent_loss" "sent_loss" (VBool true) args in
  let args := assign "normalize_embedding" "normalize_embedding" (VBool false) args in
  let args := assign "adaptive_input" "adaptive_input" (VBool false) args in
  let args := assign "encoder_normalize_before" "encoder_normalize_before" (VBool false) args in
  let args := assign "encoder_learned_pos" "encoder_learned_pos" (VBool false) args in
  let args := assign "encoder_q_dim" "encoder_q_dim" (VInt 768) args in
  let args := assign "encoder_k_dim" "encoder_k_dim" (VInt 768) args in
  let args := assign "attention_dropout" "attention_dropout" (VFloat 0) args in
  let args := assign "activation_dropout" "activation_dropout" (VFloat 0) args in
  let args := assign "activation_fn" "activation_fn" (VStr "relu") args in
  let args := assign "use_position_embeddings" "use_position_embeddings" (VBool true) args in
  let args := assign "smlp_pos" "smlp_pos" (VStr "before_act") args in
  let args := assign "has_ffn" "has_ffn" (VBool false) args in
  let args := assign "kernal_cutoff" "kernal_cutoff" (VBool false) args in
  let args := assign "complex" "complex" (VBool false) args in
  let args := assign "complex_version" "complex_version" (VStr "normal") args in
  let args := assign "no_beta" "no_beta" (VBool false) args in
  let args := assign "norm_type" "norm_type" (VStr "layernorm") args in
  let args := assign "max_lambda" "max_lambda" (VFloat (9999 # 10000)) args in
  let args := assign "norm_after_smlp" "norm_after_smlp" (VBool false) args in
  let args := assign "cls_attn" "cls_attn" (VBool false) args in
  let args := assign "gate" "gate" (VBool false) args in
  let args := assign "freeze" "freeze" (VBool false) args in
  args.

Definition smlp_mlm_complex_architecture (args : Namespace) : Namespace :=
  let args := assign "encoder_normalize_before" "encoder_normalize_before" (VBool true) args in
  let args := assign "use_position_embeddings" "use_position_embeddings" (VBool false) args in
  let args := assign "complex" "complex" (VBool true) args in
  let args := assign "r_max" "r_max" (VFloat (9 # 10)) args in
  let args := assign "r_min" "r_min" (VFloat (1 # 10)) args in
  let args := assign "max_phase" "max_phase" (VFloat (628 # 100)) args in
  let args := assign "dt_min" "dt_min" (VFloat (1 # 1000)) args in
  let args := assign "dt_max" "dt_max" (VFloat (1 # 10)) args in
  let args := assign "gate_activation_fn" "gate_activation_fn" (VStr "sigmoid") args in
  base_architecture args.

Definition smlp_mlm_complex_architecture_mp (args : Namespace) : Namespace :=
  let args := assign "sen_rep_type" "sen_rep_type" (VStr "mp") args in
  smlp_mlm_complex_architecture args.

Definition smlp_mlm_complex_architecture_test1 (args : Namespace) : Namespace :=
  let args := assign "r_max" "r_max" (VFloat (9 # 10)) args in
  let args := assign "r_min" "r_min" (VFloat (1 # 10)) args in
  let args := assign "max_phase" "max_phase" (VFloat (628 # 100)) args in
  let args := assign "sen_rep_type" "sen_rep_type" (VStr "mp") args in
  let args := assign "encoder_embed_dim" "encoder_embed_dim" (VInt 512) args in
  let args := assign "encoder_k_dim" "encoder_k_dim" (VInt 512) args in
  let args := assign "encoder_layers" "encoder_layers" (VInt 6) args in
  smlp_mlm_complex_architecture args.

Definition smlp_mlm_complex_architecture_sst2 (args : Namespace) : Namespace :=
  let args := assign "r_max" "r_max" (VFloat (9 # 10)) args in
  let args := assign "r_min" "r_min" (VFloat (1 # 10)) args in
  let args := assign "max_phase" "max_phase" (VFloat (628 # 100)) args in
  let args := assign "sen_rep_type" "sen_rep_type" (VStr "mp") args in
  let args := assign "encoder_embed_dim" "encoder_embed_dim" (VInt 512) args in
  let args := assign "encoder_k_dim" "encoder_k_dim" (VInt 512) args in
  let args := assign "encoder_layers" "encoder_layers" (VInt 12) args in
  smlp_mlm_complex_architecture args.

(** registered as "smlp_mlm_complex_sst2_gate" *)
Definition smlp_mlm_complex_architecture_qqp_gate (args : Namespace) : Namespace :=
  let args := assign "gate" "gate" (VBool true) args in
  smlp_mlm_complex_architecture_sst2 args.

(** registered as "smlp_mlm_complex_QQP_gate"; it calls the sst2 preset *)
Definition smlp_mlm_complex_architecture_sst2_gate (args : Namespace) : Namespace :=
  let args := assign "gate" "gate" (VBool true) args in
  smlp_mlm_complex_architecture_sst2 args.

Definition smlp_mlm_complex_architecture_cola (args : Namespace) : Namespace :=
  let args := assign "r_max" "r_max" (VFloat (9 # 10)) args in
  let args := assign "r_min" "r_min" (VFloat (1 # 10)) args in
  let args := assign "max_phase" "max_phase" (VFloat (628 # 100)) args in
  let args := assign "sen_rep_type" "sen_rep_type" (VStr "mp") args in
  let args := assign "encoder_embed_dim" "encoder_embed_dim" (VInt 512) args in
  let args := assign "encoder_k_dim" "encoder_k_dim" (VInt 512) args in
  let args := assign "encoder_layers" "encoder_layers" (VInt 3) args in
  smlp_mlm_complex_architecture args.

Definition smlp_mlm_complex_architecture_cola_gate (args : Namespace) : Namespace :=
  let args := assign "gate" "gate" (VBool true) args in
  smlp_mlm_complex_architecture_cola args.

Definition smlp_mlm_complex_architecture_mrpc (args : Namespace) : Namespace :=
  let args := assign "r_max" "r_max" (VFloat (9 # 10)) args in
  let args := assign "r_min" "r_min" (VFloat (1 # 10)) args in
  let args := assign "max_phase" "max_phase" (VFloat (628 # 100)) args in
  let args := assign "sen_rep_type" "sen_rep_type" (VStr "mp") args in
  let args := assign "encoder_embed_dim" "encoder_embed_dim" (VInt 512) args in
  let args := assign "encoder_k_dim" "encoder_k_dim" (VInt 512) args in
  let args := assign "encoder_layers" "encoder_layers" (VInt 6) args in
  smlp_mlm_complex_architecture args.

Definition smlp_mlm_complex_architecture_mrpc_gate (args : Namespace) : Namespace :=
  let args := assign "gate" "gate" (VBool true) args in
  smlp_mlm_complex_architecture_mrpc args.

(** The source binds the name [smlp_mlm_complex_architecture_test1_base]
    twice; the decorator registers each function object under its own
    architecture name, here told apart by a suffix. *)
Definition smlp_mlm_complex_architecture_test1_base_mnli (args : Namespace) : Namespace :=
  let args := assign "encoder_layers" "encoder_layers" (VInt 12) args in
  smlp_mlm_complex_architecture_test1 args.

Definition smlp_mlm_complex_architecture_test1_base_mnli_gate (args : Namespace) : Namespace :=
  let args := assign "gate" "gate" (VBool true) args in
  let args := assign "encoder_layers" "encoder_layers" (VInt 12) args in
  smlp_mlm_complex_architecture_test1 args.

Definition smlp_mlm_complex_gate (args : Namespace) : Namespace :=
  let args := assign "decoder_layers" "decoder_layers" (VInt 16) args in
  let args := assign "gate" "gate" (VBool true) args in
  smlp_mlm_complex_architecture args.

Definition smlp_mlm_complex_architecture_qnli (args : Namespace) : Namespace :=
  let args := assign "r_max" "r_max" (VFloat (9 # 10)) args in
  let args := assign "r_min" "r_min" (VFloat (1 # 10)) args in
  let args := assign "max_phase" "max_phase" (VFloat (628 # 100)) args in
  let args := assign "sen_rep_type" "sen_rep_type" (VStr "mp") args in
  let args := assign "encoder_embed_dim" "encoder_embed_dim" (VInt 512) args in
  let args := assign "encoder_k_dim" "encoder_k_dim" (VInt 512) args in
  let args := assign "encoder_layers" "encoder_layers" (VInt 6) args in
  smlp_mlm_complex_architecture args.

Definition smlp_mlm_complex_architecture_qnli_gate (args : Namespace) : Namespace :=
  let args := assign "gate" "gate" (VBool true) args in
  smlp_mlm_complex_architecture_test1 args.

Definition smlp_mlm_complex_architecture_imdb (args : Namespace) : Namespace :=
  let args := assign "r_max" "r_max" (VFloat (9 # 10)) args in
  let args := assign "r_min" "r_min" (VFloat (1 # 10)) args in
  let args := assign "max_phase" "max_phase" (VFloat (314 # 100)) args in
  let args := assign "sen_rep_type" "sen_rep_type" (VStr "mp") args in
  let args := assign "encoder_embed_dim" "encoder_embed_dim" (VInt 512) args in
  let args := assign "encoder_k_dim" "encoder_k_dim" (VInt 512) args in
  let args := assign "encoder_layers" "encoder_layers" (VInt 4) args in
  smlp_mlm_complex_architecture args.

Definition smlp_mlm_complex_architecture_imdb_gate (args : Namespace) : Namespace :=
  let args := assign "gate" "gate" (VBool true) args in
  smlp_mlm_complex_architecture_imdb args.

(** The table [register_model_architecture("smlp_mlm", name)] fills, in the
    order of the decorators. *)
Definition ARCH_CONFIG_REGISTRY : list (string * (Namespace -> Namespace)) :=
  [ ("smlp_mlm", base_architecture);
    ("smlp_mlm_complex", smlp_mlm_complex_architecture);
    ("smlp_mlm_complex_mp", smlp_mlm_complex_architecture_mp);
    ("smlp_mlm_complex_QQP", smlp_mlm_complex_architecture_test1);
    ("smlp_mlm_complex_sst2", smlp_mlm_complex_architecture_sst2);
    ("smlp_mlm_complex_sst2_gate", smlp_mlm_complex_architecture_qqp_gate);
    ("smlp_mlm_complex_QQP_gate", smlp_mlm_complex_architecture_sst2_gate);
    ("smlp_mlm_complex_cola", smlp_mlm_complex_architecture_cola);
    ("smlp_mlm_complex_cola_gate", smlp_mlm_complex_architecture_cola_gate);
    ("smlp_mlm_complex_mrpc", smlp_mlm_complex_architecture_mrpc);
    ("smlp_mlm_complex_mrpc_gate", smlp_mlm_complex_architecture_mrpc_gate);
    ("smlp_mlm_complex_mnli", smlp_mlm_complex_architecture_test1_base_mnli);
    ("smlp_mlm_complex_mnli_gate", smlp_mlm_complex_architecture_test1_base_mnli_gate);
    ("smlp_mlm_complex_gate", smlp_mlm_complex_gate);
    ("smlp_mlm_complex_qnli", smlp_mlm_complex_architecture_qnli);
    ("smlp_mlm_complex_qnli_gate", smlp_mlm_complex_architecture_qnli_gate);
    ("smlp_mlm_complex_imdb", smlp_mlm_complex_architecture_imdb);
    ("smlp_mlm_complex_imdb_gate", smlp_mlm_complex_architecture_imdb_gate) ].

Fixpoint registry_lookup (reg : list (string * (Namespace -> Namespace))) (name : string)
  : option (Namespace -> Namespace) :=
  match reg with
  | [] => None
  | (n, f) :: reg' => if String.eqb n name then Some f else registry_lookup reg' name
  end.

(** Resolution of the architecture [name] on the caller's namespace: the
    registered function is looked up and run on it; an unregistered name
    resolves to nothing. *)
Definition resolve (name : string) (partial_config : Namespace) : option Namespace :=
  match registry_lookup ARCH_CONFIG_REGISTRY name with
  | Some f => Some (f partial_config)
  | None => None
  end.

(** ** The presets as lists of assignments

    Every line of a preset has the shape [args.dst = getattr(args, src, d)].
    A preset followed by the presets it calls is then a list of such lines,
    the most-derived preset's lines first. *)

Definition Stmt : Type := string * string * Value.

Definition exec (s : Stmt) (args : Namespace) : Namespace :=
  let '(dst, src, d) := s in assign dst src d args.

Definition run (p : list Stmt) (args : Namespace) : Namespace :=
  foldl (fun a s => exec s a) args p.

Definition dsts (p : list Stmt) : list string := map (fun s => s.1.1) p.

(** [args.k = getattr(args, k, d)] *)
Definition dflt (k : string) (d : Value) : Stmt := (k, k, d).

Definition base_lines : list Stmt :=
  [ dflt "encoder_layers" (VInt 12);
    dflt "encoder_embed_dim" (VInt 768);
    dflt "encoder_attention_heads" (VInt 12);
    dflt "activation_fn" (VStr "gelu");
    dflt "pooler_activation_fn" (VStr "tanh");
    dflt "dropout" (VFloat (1 # 10));
    dflt "pooler_dropout" (VFloat 0);
    dflt "encoder_layers_to_keep" VNone;
    dflt "encoder_layerdrop" (VFloat 0);
    ("spectral_norm_classification_head", "spectral_nrom_classification_head", VBool false);
    dflt "share_encoder_input_output_embed" (VBool true);
    dflt "encoder_learned_pos" (VBool false);
    dflt "no_token_positional_embeddings" (VBool false);
    dflt "sent_loss" (VBool true);
    dflt "normalize_embedding" (VBool false);
    dflt "adaptive_input" (VBool false);
    dflt "encoder_normalize_before" (VBool false);
    dflt "encoder_learned_pos" (VBool false);
    dflt "encoder_q_dim" (VInt 768);
    dflt "encoder_k_dim" (VInt 768);
    dflt "attention_dropout" (VFloat 0);
    dflt "activation_dropout" (VFloat 0);
    dflt "activation_fn" (VStr "relu");
    dflt "use_position_embeddings" (VBool true);
    dflt "smlp_pos" (VStr "before_act");
    dflt "has_ffn" (VBool false);
    dflt "kernal_cutoff" (VBool false);
    dflt "complex" (VBool false);
    dflt "complex_version" (VStr "normal");
    dflt "no_beta" (VBool false);
    dflt "norm_type" (VStr "layernorm");
    dflt "max_lambda" (VFloat (9999 # 10000));
    dflt "norm_after_smlp" (VBool false);
    dflt "cls_attn" (VBool false);
    dflt "gate" (VBool false);
    dflt "freeze" (VBool false) ].

Definition complex_lines : list Stmt :=
  [ dflt "encoder_normalize_before" (VBool true);
    dflt "use_position_embeddings" (VBool false);
    dflt "complex" (VBool true);
    dflt "r_max" (VFloat (9 # 10));
    dflt "r_min" (VFloat (1 # 10));
    dflt "max_phase" (VFloat (628 # 100));
    dflt "dt_min" (VFloat (1 # 1000));
    dflt "dt_max" (VFloat (1 # 10));
    dflt "gate_activation_fn" (VStr "sigmoid") ] ++ base_lines.

(** The lines shared by the task presets, up to [max_phase] and the depth. *)
Definition task_lines (max_phase : Q) (encoder_layers : Z) : list Stmt :=
  [ dflt "r_max" (VFloat (9 # 10));
    dflt "r_min" (VFloat (1 # 10));
    dflt "max_phase" (VFloat max_phase);
    dflt "sen_rep_type" (VStr "mp");
    dflt "encoder_embed_dim" (VInt 512);
    dflt "encoder_k_dim" (VInt 512);
    dflt "encoder_layers" (VInt encoder_layers) ] ++ complex_lines.

Definition gate_line : Stmt := dflt "gate" (VBool true).

(** The lines each registered architecture runs, in the order it runs them. *)
Definition ARCH_LINES : list (string * list Stmt) :=
  [ ("smlp_mlm", base_lines);
    ("smlp_mlm_complex", complex_lines);
    ("smlp_mlm_complex_mp", dflt "sen_rep_type" (VStr "mp") :: complex_lines);
    ("smlp_mlm_complex_QQP", task_lines (628 # 100) 6);
    ("smlp_mlm_complex_sst2", task_lines (628 # 100) 12);
    ("smlp_mlm_complex_sst2_gate", gate_line :: task_lines (628 # 100) 12);
    ("smlp_mlm_complex_QQP_gate", gate_line :: task_lines (628 # 100) 12);
    ("smlp_mlm_complex_cola", task_lines (628 # 100) 3);
    ("smlp_mlm_complex_cola_gate", gate_line :: task_lines (628 # 100) 3);
    ("smlp_mlm_complex_mrpc", task_lines (628 # 100) 6);
    ("smlp_mlm_complex_mrpc_gate", gate_line :: task_lines (628 # 100) 6);
    ("smlp_mlm_complex_mnli", dflt "encoder_layers" (VInt 12) :: task_lines (628 # 100) 6);
    ("smlp_mlm_complex_mnli_gate",
       gate_line :: dflt "encoder_layers" (VInt 12) :: task_lines (628 # 100) 6);
    ("smlp_mlm_complex_gate", dflt "decoder_layers" (VInt 16) :: gate_line :: complex_lines);
    ("smlp_mlm_complex_qnli", task_lines (628 # 100) 6);
    ("smlp_mlm_complex_qnli_gate", gate_line :: task_lines (628 # 100) 6);
    ("smlp_mlm_complex_imdb", task_lines (314 # 100) 4);
    ("smlp_mlm_complex_imdb_gate", gate_line :: task_lines (314 # 100) 4) ].

(** The option the root preset reads under a misspelt name. *)
Definition spectral_norm_key : string := "spectral_norm_classification_head".
Definition spectral_nrom_key : string := "spectral_nrom_classification_head".

(** Every line is a plain default, or writes [spectral_norm_key]. *)
Definition plain_but_spectral (p : list Stmt) : bool :=
  forallb (fun '(dst, src, _) => String.eqb dst src || String.eqb dst spectral_norm_key) p.

(** A line whose source differs from its target reads a name no line
    writes, and is the last line to write its target. *)
Fixpoint settled (written : list string) (p : list Stmt) : bool :=
  match p with
  | [] => true
  | (dst, src, _) :: p' =>
      (String.eqb dst src
       || (negb (existsb (String.eqb src) written) && negb (existsb (String.eqb dst) (dsts p'))))
      && settled written p'
  end.

(** The line [s] finds its target already holding what it would write. *)
Definition at_rest (args : Namespace) (s : Stmt) : Prop :=
  args !! s.1.1 = Some (getattr args s.1.2 s.2).

(** The default of the first line that writes [k]. *)
Fixpoint first_default (p : list Stmt) (k : string) : option Value :=
  match p with
  | [] => None
  | (dst, _, d) :: p' => if String.eqb dst k then Some d else first_default p' k
  end.

End Arch.

(* ===================================================================== *)
(** * Python strings and insertion-ordered dictionaries *)
(* ===================================================================== *)

Module Py.

(** [k.startswith(p)] *)
Definition startswith (k p : string) : bool := String.prefix p k.

(** [k[n:]] *)
Fixpoint drop (n : nat) (k : string) : string :=
  match n, k with
  | O, _ => k
  | S _, EmptyString => EmptyString
  | S n', String _ k' => drop n' k'
  end.

(** [s.split(".")[0]]: the characters before the first dot. *)
Fixpoint split_dot_first (s : string) : string :=
  match s with
  | EmptyString => EmptyString
  | String c s' =>
      if Ascii.eqb c "."%char then EmptyString else String c (split_dot_first s')
  end.

(** A name without a dot: it is its own first segment. *)
Definition dot_free (s : string) : Prop := split_dot_first s = s.

(** A [dict] keyed by strings keeps its keys in insertion order: an
    association list. Assignment to a key already present keeps its place. *)
Section Dict.
Context {V : Type}.

Fixpoint get (d : list (string * V)) (k : string) : option V :=
  match d with
  | [] => None
  | (k', v) :: d' => if String.eqb k' k then Some v else get d' k
  end.

(** [k in d] *)
Definition contains (d : list (string * V)) (k : string) : bool :=
  match get d k with Some _ => true | None => false end.

(** [d[k] = v] *)
Fixpoint set (d : list (string * V)) (k : string) (v : V) : list (string * V) :=
  match d with
  | [] => [(k, v)]
  | (k', v') :: d' =>
      if String.eqb k' k then (k', v) :: d' else (k', v') :: set d' k v
  end.

(** [del d[k]], for a key that is present *)
Fixpoint remove (d : list (string * V)) (k : string) : list (string * V) :=
  match d with
  | [] => []
  | (k', v') :: d' =>
      if String.eqb k' k then remove d' k else (k', v') :: remove d' k
  end.

(** [d.keys()] *)
Definition keys (d : list (string * V)) : list string := map fst d.
End Dict.

End Py.

(* ===================================================================== *)
(** * The model: classification heads and the state-dict upgrade *)
(* ===================================================================== *)

Module Model.

(** A tensor as the upgrade sees it: its shape, and its contents as an
    opaque token. *)
Record Tensor : Type := { shape : list N; data : nat }.

(** A persisted parameter blob, [state_dict]. *)
Abbreviation StateDict := (list (string * Tensor)).

Inductive Exn : Type :=
  | KeyError (key : string)
  | IndexError
  | NotImplementedError.

(** [nn.Linear(in_features, out_features)] with its [state_dict()]. *)
Record Linear : Type := {
  in_features : N;
  out_features : N;
  linear_state : list (string * Tensor)
}.

(** A new [nn.Linear]: [weight] of shape [out, in] and [bias] of shape
    [out], initialised anew for the object [oid]. *)
Definition new_Linear (oid : nat) (inf outf : N) : Linear :=
  {| in_features := inf;
     out_features := outf;
     linear_state := [ ("weight", {| shape := [outf; inf]; data := oid |});
                       ("bias", {| shape := [outf]; data := oid |}) ] |}.

(** [torch.nn.utils.spectral_norm(m)]: the parameter [weight] is registered
    again as [weight_orig], next to the buffers [weight_u] and [weight_v]. *)
Definition spectral_norm (oid : nat) (m : Linear) : Linear :=
  {| in_features := in_features m;
     out_features := out_features m;
     linear_state :=
       [ ("bias", {| shape := [out_features m]; data := oid |});
         ("weight_orig", {| shape := [out_features m; in_features m]; data := oid |});
         ("weight_u", {| shape := [out_features m]; data := oid |});
         ("weight_v", {| shape := [in_features m]; data := oid |}) ] |}.

(** [apply_quant_noise_(m, p, block_size)] gives back [m], with a forward
    hook when [p > 0]; the parameters are the module's. *)
Definition apply_quant_noise_ (m : Linear) (q_noise : Q) (qn_block_size : N) : Linear := m.

Record SMLPClassificationHead : Type := {
  head_object : nat;           (* which object this is *)
  dense : Linear;
  activation_fn : string;
  dropout_p : Q;
  out_proj : Linear;
  sen_rep_type : string
}.

(** The fields of [self.args] the model reads. *)
Record Args : Type := {
  encoder_embed_dim : N;
  pooler_activation_fn : string;
  pooler_dropout : Q;
  quant_noise_pq : Q;
  quant_noise_pq_block_size : N;
  spectral_norm_classification_head : bool;
  args_sen_rep_type : string;
  load_checkpoint_heads : option bool   (* read with [getattr(.., False)] *)
}.

Record SMLP_MLM_Model : Type := {
  args : Args;
  classification_heads : list (string * SMLPClassificationHead);   (* nn.ModuleDict *)
  next_object : nat            (* objects constructed so far *)
}.

Inductive LogRecord : Type :=
  | Warning_reregistering (name : string) (num_classes prev_num_classes : N)
                          (inner_dim : option N) (prev_inner_dim : N)
  | Warning_deleting_not_present (head_name k : string)
  | Warning_deleting_different_dimensions (head_name k : string)
  | Info_sen_rep_type (sen_rep_type : string)
  | Info_overwriting (key : string).

Definition is_warning (r : LogRecord) : bool :=
  match r with
  | Warning_reregistering _ _ _ _ _
  | Warning_deleting_not_present _ _
  | Warning_deleting_different_dimensions _ _ => true
  | Info_sen_rep_type _ | Info_overwriting _ => false
  end.

(** What a method call works on: the model [self], the [state_dict] passed
    in (updated in place) and the records sent to [logger]. *)
Record St : Type := {
  self : SMLP_MLM_Model;
  state_dict : StateDict;
  logged : list LogRecord
}.

(** A method body: it returns or raises, and leaves a state either way. *)
Definition M (A : Type) : Type := St -> (Exn + A) * St.

Definition ret {A} (a : A) : M A := fun s => (inr a, s).
Definition raise {A} (e : Exn) : M A := fun s => (inl e, s).
Definition bind {A B} (m : M A) (f : A -> M B) : M B :=
  fun s => match m s with
           | (inl e, s') => (inl e, s')
           | (inr a, s') => f a s'
           end.

Declare Scope py_scope.
Delimit Scope py_scope with py.
Notation "'let*' x ':=' c1 'in' c2" := (bind c1 (fun x => c2))
  (at level 10, x pattern, c1 at level 100, c2 at level 200) : py_scope.
Notation "c1 ';;' c2" := (bind c1 (fun _ => c2))
  (at level 100, c2 at level 200, right associativity) : py_scope.
Open Scope py_scope.

Definition set_self (s : St) (m : SMLP_MLM_Model) : St :=
  {| self := m; state_dict := state_dict s; logged := logged s |}.
Definition set_state_dict (s : St) (sd : StateDict) : St :=
  {| self := self s; state_dict := sd; logged := logged s |}.
Definition add_logged (s : St) (rs : list LogRecord) : St :=
  {| self := self s; state_dict := state_dict s; logged := logged s ++ rs |}.

Definition get_self : M SMLP_MLM_Model := fun s => (inr (self s), s).
Definition get_state_dict : M StateDict := fun s => (inr (state_dict s), s).
Definition put_self (m : SMLP_MLM_Model) : M unit := fun s => (inr tt, set_self s m).
Definition put_state_dict (sd : StateDict) : M unit := fun s => (inr tt, set_state_dict s sd).
Definition logger (r : LogRecord) : M unit := fun s => (inr tt, add_logged s [r]).

(** [for x in l: body(x)] *)
Fixpoint for_each {K} (l : list K) (body : K -> M unit) : M unit :=
  match l with
  | [] => ret tt
  | x :: l' => body x ;; for_each l' body
  end.

(** A loop that also updates a local variable [acc]. *)
Fixpoint for_acc {K B} (l : list K) (acc : B) (body : B -> K -> M B) : M B :=
  match l with
  | [] => ret acc
  | x :: l' => let* acc' := body acc x in for_acc l' acc' body
  end.

(** [state_dict[k]] *)
Definition sd_getitem (k : string) : M Tensor :=
  let* sd := get_state_dict in
  match Py.get sd k with
  | Some v => ret v
  | None => raise (KeyError k)
  end.

(** [state_dict[k] = v] *)
Definition sd_setitem (k : string) (v : Tensor) : M unit :=
  let* sd := get_state_dict in put_state_dict (Py.set sd k v).

(** [del state_dict[k]] *)
Definition sd_delitem (k : string) : M unit :=
  let* sd := get_state_dict in
  if Py.contains sd k then put_state_dict (Py.remove sd k) else raise (KeyError k).

(** [t.size(0)] *)
Definition size0 (t : Tensor) : M N :=
  match shape t with
  | [] => raise IndexError
  | d :: _ => ret d
  end.

(** [SMLPClassificationHead.__init__], for the new object [oid]. *)
Definition SMLPClassificationHead_init (oid : nat)
    (input_dim inner_dim num_classes : N) (activation_fn : string) (pooler_dropout : Q)
    (q_noise : Q) (qn_block_size : N) (do_spectral_norm : bool) (sen_rep_type : string)
  : M SMLPClassificationHead :=
  let dense := new_Linear oid input_dim inner_dim in
  let out_proj := apply_quant_noise_ (new_Linear oid inner_dim num_classes) q_noise qn_block_size in
  logger (Info_sen_rep_type sen_rep_type) ;;
  let* out_proj :=
    if do_spectral_norm then
      if negb (Qeq_bool q_noise 0) then raise NotImplementedError
      else ret (spectral_norm oid out_proj)
    else ret out_proj in
  ret {| head_object := oid; dense := dense; activation_fn := activation_fn;
         dropout_p := pooler_dropout; out_proj := out_proj; sen_rep_type := sen_rep_type |}.

(** [inner_dim or self.args.encoder_embed_dim] *)
Definition inner_dim_or (inner_dim : option N) (embed_dim : N) : N :=
  match inner_dim with
  | None | Some 0%N => embed_dim
  | Some d => d
  end.

(** [inner_dim != prev_inner_dim], where [inner_dim] may be [None] *)
Definition differs (inner_dim : option N) (prev : N) : bool :=
  match inner_dim with
  | None => true
  | Some d => negb (N.eqb d prev)
  end.

Definition register_classification_head (name : string) (num_classes : N)
    (inner_dim : option N) : M unit :=
  let* m := get_self in
  match Py.get (classification_heads m) name with
  | Some prev =>
      let prev_num_classes := out_features (out_proj prev) in
      let prev_inner_dim := out_features (dense prev) in
      if negb (N.eqb num_classes prev_num_classes) || differs inner_dim prev_inner_dim then
        logger (Warning_reregistering name num_classes prev_num_classes inner_dim prev_inner_dim)
      else ret tt
  | None => ret tt
  end ;;
  let oid := next_object m in
  put_self {| args := args m; classification_heads := classification_heads m;
              next_object := S oid |} ;;
  let* head := SMLPClassificationHead_init oid
                 (encoder_embed_dim (args m))
                 (inner_dim_or inner_dim (encoder_embed_dim (args m)))
                 num_classes
                 (pooler_activation_fn (args m))
                 (pooler_dropout (args m))
                 (quant_noise_pq (args m))
                 (quant_noise_pq_block_size (args m))
                 (spectral_norm_classification_head (args m))
                 (args_sen_rep_type (args m)) in
  let* m := get_self in
  put_self {| args := args m;
              classification_heads := Py.set (classification_heads m) name head;
              next_object := next_object m |}.

(** [module.state_dict()] of a head: the entries of [dense], then of
    [out_proj], each under its attribute name. *)
Definition head_state_dict (h : SMLPClassificationHead) : list (string * Tensor) :=
  map (fun '(k, v) => ("dense." +:+ k, v)) (linear_state (dense h)) ++
  map (fun '(k, v) => ("out_proj." +:+ k, v)) (linear_state (out_proj h)).

(** [self.classification_heads.state_dict()] *)
Definition heads_state_dict (heads : list (string * SMLPClassificationHead))
  : list (string * Tensor) :=
  flat_map (fun '(name, h) => map (fun '(k, v) => (name +:+ "." +:+ k, v)) (head_state_dict h))
           heads.

Section Upgrade.

(** [super().upgrade_state_dict_named(state_dict, name)]: the upgrade the
    fairseq base class runs over the children modules. *)
Variable super_upgrade_state_dict_named : StateDict -> string -> StateDict.

(** [prefix = name + "." if name != "" else ""] *)
Definition prefix_of (name : string) : string :=
  if negb (String.eqb name "") then name +:+ "." else "".

(** Body of the first loop: rename decoder -> encoder. *)
Definition rename_decoder_key (prefix k : string) : M unit :=
  if Py.startswith k (prefix +:+ "decoder") then
    let new_k := prefix +:+ "encoder" +:+ Py.drop (String.length (prefix +:+ "decoder")) k in
    let* v := sd_getitem k in
    sd_setitem new_k v ;;
    sd_delitem k
  else ret tt.

(** Body of the second loop: one key of the state dict against the heads
    of the model; [keys_to_delete] is the loop's local list. *)
Definition handle_head_key (prefix : string) (keys_to_delete : list string) (k : string)
  : M (list string) :=
  if negb (Py.startswith k (prefix +:+ "classification_heads.")) then
    ret keys_to_delete
  else
    let head_name :=
      Py.split_dot_first (Py.drop (String.length (prefix +:+ "classification_heads.")) k) in
    let* w := sd_getitem (prefix +:+ "classification_heads." +:+ head_name
                          +:+ ".out_proj.weight") in
    let* num_classes := size0 w in
    let* w := sd_getitem (prefix +:+ "classification_heads." +:+ head_name
                          +:+ ".dense.weight") in
    let* inner_dim := size0 w in
    let* m := get_self in
    (* [current_head_names] is a view of the live collection *)
    let current_head := Py.get (classification_heads m) head_name in
    match load_checkpoint_heads (args m) with
    | Some true =>
        match current_head with
        | None =>
            register_classification_head head_name num_classes (Some inner_dim) ;;
            ret keys_to_delete
        | Some _ => ret keys_to_delete
        end
    | _ =>
        match current_head with
        | None =>
            logger (Warning_deleting_not_present head_name k) ;;
            ret (keys_to_delete ++ [k])
        | Some h =>
            if negb (N.eqb num_classes (out_features (out_proj h)))
               || negb (N.eqb inner_dim (out_features (dense h))) then
              logger (Warning_deleting_different_dimensions head_name k) ;;
              ret (keys_to_delete ++ [k])
            else ret keys_to_delete
        end
    end.

(** Body of the last loop: one entry of the heads' current state. *)
Definition copy_head_entry (prefix : string) (kv : string * Tensor) : M unit :=
  let '(k, v) := kv in
  let* sd := get_state_dict in
  if negb (Py.contains sd (prefix +:+ "classification_heads." +:+ k)) then
    logger (Info_overwriting (prefix +:+ "classification_heads." +:+ k)) ;;
    sd_setitem (prefix +:+ "classification_heads." +:+ k) v
  else ret tt.

Definition upgrade_state_dict_named (name : string) : M unit :=
  let prefix := prefix_of name in
  (* rename decoder -> encoder before upgrading children modules *)
  let* sd := get_state_dict in
  for_each (Py.keys sd) (rename_decoder_key prefix) ;;
  (* upgrade children modules *)
  let* sd := get_state_dict in
  put_state_dict (super_upgrade_state_dict_named sd name) ;;
  (* Handle new classification heads present in the state dict. *)
  let* sd := get_state_dict in
  let* keys_to_delete := for_acc (Py.keys sd) [] (handle_head_key prefix) in
  for_each keys_to_delete sd_delitem ;;
  (* Copy any newly-added classification heads into the state dict
     with their current weights. *)
  let* m := get_self in
  let cur_state := heads_state_dict (classification_heads m) in
  for_each cur_state (copy_head_entry prefix).

End Upgrade.

(** ** Vocabulary of the statements *)

(** A key the first loop renames, the name it gets, and the legacy key
    that would be renamed to a given name. *)
Definition legacy (prefix k : string) : bool := Py.startswith k (prefix +:+ "decoder").
Definition renamed (prefix k : string) : string :=
  prefix +:+ "encoder" +:+ Py.drop (String.length (prefix +:+ "decoder")) k.
Definition legacy_of (prefix k : string) : string :=
  prefix +:+ "decoder" +:+ Py.drop (String.length (prefix +:+ "encoder")) k.

(** A key under the classification-heads namespace, and the head it names. *)
Definition head_key (prefix k : string) : bool :=
  Py.startswith k (prefix +:+ "classification_heads.").
Definition head_name_of (prefix k : string) : string :=
  Py.split_dot_first (Py.drop (String.length (prefix +:+ "classification_heads.")) k).

(** [num_classes] and [inner_dim] as the second loop reads them for the
    head [hn], when both weights are there and have a first dimension. *)
Definition persisted_dims (prefix : string) (sd : StateDict) (hn : string) : option (N * N) :=
  match Py.get sd (prefix +:+ "classification_heads." +:+ hn +:+ ".out_proj.weight"),
        Py.get sd (prefix +:+ "classification_heads." +:+ hn +:+ ".dense.weight") with
  | Some w1, Some w2 =>
      match shape w1, shape w2 with
      | num_classes :: _, inner_dim :: _ => Some (num_classes, inner_dim)
      | _, _ => None
      end
  | _, _ => None
  end.

(** Every head named in the blob has its two weights, each of rank 1 or more. *)
Definition heads_complete (prefix : string) (sd : StateDict) : Prop :=
  forall k, k ∈ Py.keys sd -> head_key prefix k = true ->
            is_Some (persisted_dims prefix sd (head_name_of prefix k)).


(** The constructor of a head goes through: spectral normalisation is not
    asked for together with quantisation noise. *)
Definition ctor_ok (a : Args) : bool :=
  negb (spectral_norm_classification_head a && negb (Qeq_bool (quant_noise_pq a) 0)).

(** The head [register_classification_head] builds on the model [m]. *)
Definition built_head (m : SMLP_MLM_Model) (num_classes : N) (inner_dim : option N)
  : SMLPClassificationHead :=
  let oid := next_object m in
  let inner := inner_dim_or inner_dim (encoder_embed_dim (args m)) in
  {| head_object := oid;
     dense := new_Linear oid (encoder_embed_dim (args m)) inner;
     activation_fn := pooler_activation_fn (args m);
     dropout_p := pooler_dropout (args m);
     out_proj :=
       if spectral_norm_classification_head (args m)
       then spectral_norm oid (new_Linear oid inner num_classes)
       else new_Linear oid inner num_classes;
     sen_rep_type := args_sen_rep_type (args m) |}.

(** The records [register_classification_head] sends to the logger. *)
Definition register_records (m : SMLP_MLM_Model) (name : string) (num_classes : N)
    (inner_dim : option N) : list LogRecord :=
  match Py.get (classification_heads m) name with
  | Some prev =>
      if negb (N.eqb num_classes (out_features (out_proj prev)))
         || differs inner_dim (out_features (dense prev))
      then [Warning_reregistering name num_classes (out_features (out_proj prev))
              inner_dim (out_features (dense prev))]
      else []
  | None => []
  end ++ [Info_sen_rep_type (args_sen_rep_type (args m))].

(** The second loop marks [k] for deletion. *)
Definition dropped (prefix : string) (m : SMLP_MLM_Model) (sd : StateDict) (k : string) : bool :=
  head_key prefix k &&
  match Py.get (classification_heads m) (head_name_of prefix k),
        persisted_dims prefix sd (head_name_of prefix k) with
  | None, _ => true
  | Some h, Some (num_classes, inner_dim) =>
      negb (N.eqb num_classes (out_features (out_proj h)))
      || negb (N.eqb inner_dim (out_features (dense h)))
  | Some _, None => false
  end.

(** What a lookup finds once the keys [ks] went through the first loop. *)
Definition rename_spec (prefix : string) (ks : list string) (sd : StateDict) (k : string)
  : option Tensor :=
  if legacy prefix k then
    if bool_decide (k ∈ ks) then None else Py.get sd k
  else if Py.startswith k (prefix +:+ "encoder") && bool_decide (legacy_of prefix k ∈ ks) then
    Py.get sd (legacy_of prefix k)
  else Py.get sd k.

(** The state [register_classification_head] leaves when the constructor
    goes through. *)
Definition registered (st : St) (name : string) (num_classes : N) (inner_dim : option N) : St :=
  {| self := {| args := args (self st);
                classification_heads :=
                  Py.set (classification_heads (self st)) name
                         (built_head (self st) num_classes inner_dim);
                next_object := S (next_object (self st)) |};
     state_dict := state_dict st;
     logged := logged st ++ register_records (self st) name num_classes inner_dim |}.

(** The steps after the children's upgrade, from the state [st2] they
    start in. *)
Definition reconcile_and_copy (prefix : string) (st2 : St) : (Exn + unit) * St :=
  match for_acc (Py.keys (state_dict st2)) [] (handle_head_key prefix) st2 with
  | (inl e, st3) => (inl e, st3)
  | (inr keys_to_delete, st3) =>
      match for_each keys_to_delete sd_delitem st3 with
      | (inl e, st4) => (inl e, st4)
      | (inr _, st4) =>
          for_each (heads_state_dict (classification_heads (self st4)))
                   (copy_head_entry prefix) st4
      end
  end.

(** A [ModuleDict]: no name twice, no dot inside a name. *)
Definition valid_heads (heads : list (string * SMLPClassificationHead)) : Prop :=
  NoDup (Py.keys heads) /\ Forall Py.dot_free (Py.keys heads).

(** The children modules upgrade nothing. *)
Definition children_idle (super_upgrade_state_dict_named : StateDict -> string -> StateDict)
    (name : string) : Prop :=
  forall sd, super_upgrade_state_dict_named sd name = sd.

(** ** A small model and blobs, for the examples *)

Definition tensor (sh : list N) (d : nat) : Tensor := {| shape := sh; data := d |}.

Definition example_args (load : option bool) : Args :=
  {| encoder_embed_dim := 512;
     pooler_activation_fn := "tanh";
     pooler_dropout := 0;
     quant_noise_pq := 0;
     quant_noise_pq_block_size := 8;
     spectral_norm_classification_head := false;
     args_sen_rep_type := "mp";
     load_checkpoint_heads := load |}.

(** A model without heads, the state dict [sd] handed to it, nothing logged. *)
Definition example_state (load : option bool) (sd : StateDict) : St :=
  {| self := {| args := example_args load; classification_heads := []; next_object := 0 |};
     state_dict := sd;
     logged := [] |}.

(** The same after [register_classification_head(name, num_classes, None)]. *)
Definition example_state_with_head (load : option bool) (name : string) (num_classes : N)
    (sd : StateDict) : St :=
  set_state_dict (register_classification_head name num_classes None (example_state load [])).2 sd.

(** The persisted parameters of a head "sst2" with [num_classes] classes. *)
Definition sst2_blob (num_classes : N) : StateDict :=
  [ ("classification_heads.sst2.dense.weight", tensor [512%N; 512%N] 11);
    ("classification_heads.sst2.dense.bias", tensor [512%N] 11);
    ("classification_heads.sst2.out_proj.weight", tensor [num_classes; 512%N] 11);
    ("classification_heads.sst2.out_proj.bias", tensor [num_classes] 11) ].

Definition mnli_blob : StateDict :=
  [ ("classification_heads.mnli.dense.weight", tensor [512%N; 512%N] 11);
    ("classification_heads.mnli.dense.bias", tensor [512%N] 11);
    ("classification_heads.mnli.out_proj.weight", tensor [3%N; 512%N] 11);
    ("classification_heads.mnli.out_proj.bias", tensor [3%N] 11) ].



(** A blob with a legacy key and, already, its new name. *)
Definition collision_blob : StateDict :=
  [ ("decoder.lm_head.bias", tensor [3%N] 1); ("encoder.lm_head.bias", tensor [3%N] 2) ].

(** A key of a head "mnli", and none of its weights. *)
Definition headless_mnli : StateDict :=
  [ ("classification_heads.mnli.dense.bias", tensor [512%N] 4) ].

(** Children modules that upgrade nothing. *)
Definition no_children_upgrade (sd : StateDict) (name : string) : StateDict := sd.

End Model.

(* ===================================================================== *)
(** * The forward pass *)
(* ===================================================================== *)

Module Forward.
Import Model.

(** The sub-modules a forward pass runs, in the order it runs them. *)
Inductive Call : Type :=
  | Call_sentence_encoder
  | Call_lm_head
  | Call_classification_head (name : string).

(** A forward computation: it returns or raises, and has run some modules. *)
Definition F (A : Type) : Type := (Exn + A) * list Call.

Definition fret {A} (a : A) : F A := (inr a, []).
Definition fraise {A} (e : Exn) : F A := (inl e, []).
Definition called (c : Call) : F unit := (inr tt, [c]).
Definition fbind {A B} (m : F A) (f : A -> F B) : F B :=
  match m with
  | (inl e, t) => (inl e, t)
  | (inr a, t) => let '(r, t') := f a in (r, t ++ t')
  end.

Declare Scope fwd_scope.
Delimit Scope fwd_scope with fwd.
Notation "'let*' x ':=' c1 'in' c2" := (fbind c1 (fun x => c2))
  (at level 10, x pattern, c1 at level 100, c2 at level 200) : fwd_scope.
Notation "c1 ';;' c2" := (fbind c1 (fun _ => c2))
  (at level 100, c2 at level 200, right associativity) : fwd_scope.

Section Kernels.
Open Scope fwd_scope.

(** Activations, and the kernels of torch and of the sentence encoder. *)
Variable T : Type.
Variable sentence_encoder : T -> option T -> bool -> list T.
Variable transpose01 : T -> T.                  (* [t.transpose(0, 1)] *)
Variable index_rows : T -> T -> T.              (* [features[masked_tokens, :]] *)
Variable lm_dense lm_activation_fn lm_layer_norm lm_project : T -> T.
Variable sum_dim1 mean_dim1 first_token unsqueeze_last : T -> T.
Variable div : T -> T -> T.
Variable dropout : Q -> T -> T.
Variable linear : Linear -> T -> T.
Variable activation : string -> T -> T.

(** The keyword arguments the forward methods look at. *)
Record Kwargs : Type := {
  masked_tokens : option T;
  src_lengths : option T
}.

(** [{"inner_states": ...}] *)
Definition Extra : Type := option (list T).

(** [SMLPLMHead.forward] *)
Definition SMLPLMHead_forward (features : T) (masked_tokens : option T) : F T :=
  called Call_lm_head ;;
  let features :=
    match masked_tokens with
    | Some mt => index_rows features mt
    | None => features
    end in
  let x := lm_dense features in
  let x := lm_activation_fn x in
  let x := lm_layer_norm x in
  let x := lm_project x in
  fret x.

(** [SMLPClassificationHead.forward] *)
Definition SMLPClassificationHead_forward (name : string) (h : SMLPClassificationHead)
    (features : T) (kwargs : Kwargs) : F T :=
  called (Call_classification_head name) ;;
  let* x :=
    if String.eqb (sen_rep_type h) "mp" then
      match src_lengths kwargs with
      | Some src_lengths => fret (div (sum_dim1 features) (unsqueeze_last src_lengths))
      | None => fret (mean_dim1 features)
      end
    else if String.eqb (sen_rep_type h) "cls" then
      fret (first_token features)
    else fraise NotImplementedError in
  let x := dropout (dropout_p h) x in
  let x := linear (dense h) x in
  let x := activation (activation_fn h) x in
  let x := dropout (dropout_p h) x in
  let x := linear (out_proj h) x in
  fret x.

(** [RobertaEncoder.extract_features] *)
Definition extract_features (src_tokens : T) (src_lengths : option T)
    (return_all_hiddens : bool) : F (T * Extra) :=
  called Call_sentence_encoder ;;
  let inner_states := sentence_encoder src_tokens src_lengths (negb return_all_hiddens) in
  match inner_states with
  | [] => fraise IndexError
  | s0 :: _ =>
      let features := transpose01 s0 in
      fret (features, if return_all_hiddens then Some inner_states else None)
  end.

(** [RobertaEncoder.output_layer] *)
Definition output_layer (features : T) (masked_tokens : option T) : F T :=
  SMLPLMHead_forward features masked_tokens.

(** [RobertaEncoder.forward] *)
Definition RobertaEncoder_forward (src_tokens : T) (features_only return_all_hiddens : bool)
    (kwargs : Kwargs) : F (T * Extra) :=
  let src_lengths := src_lengths kwargs in
  let* (x, extra) := extract_features src_tokens src_lengths return_all_hiddens in
  let* x :=
    if negb features_only then output_layer x (masked_tokens kwargs) else fret x in
  fret (x, extra).

(** [SMLP_MLM_Model.forward] *)
Definition forward (m : SMLP_MLM_Model) (src_tokens : T)
    (features_only return_all_hiddens : bool)
    (classification_head_name : option string) (kwargs : Kwargs) : F (T * Extra) :=
  let features_only :=
    match classification_head_name with
    | Some _ => true
    | None => features_only
    end in
  let* (x, extra) := RobertaEncoder_forward src_tokens features_only return_all_hiddens kwargs in
  let* x :=
    match classification_head_name with
    | Some name =>
        match Py.get (classification_heads m) name with
        | Some h => SMLPClassificationHead_forward name h x kwargs
        | None => fraise (KeyError name)
        end
    | None => fret x
    end in
  fret (x, extra).

End Kernels.

(** A model with the head "sst2", and kernels on numbers standing for
    tensors. *)
Definition forward_example (features_only : bool) : F (nat * Extra nat) :=
  forward nat (fun src _ _ => [src]) (fun t => t) (fun t _ => t)
          S S S S (fun t => t) (fun t => t) (fun t => t) (fun t => t) (fun t _ => t)
          (fun _ t => t) (fun _ t => t) (fun _ t => t)
          (self (example_state_with_head None "sst2" 2 []))
          7 features_only false (Some "sst2")
          {| masked_tokens := None; src_lengths := None |}.

End Forward.

(* ===================================================================== *)
(** * Building the model *)
(* ===================================================================== *)

Module Build.
Import Arch.

Inductive Exn : Type :=
  | AttributeError (name : string).

(** A step of the constructors: a result, or the exception raised. *)
Definition bind {A B} (m : Exn + A) (f : A -> Exn + B) : Exn + B :=
  match m with
  | inl e => inl e
  | inr a => f a
  end.

Declare Scope build_scope.
Delimit Scope build_scope with build.
Notation "'let*' x ':=' c1 'in' c2" := (bind c1 (fun x => c2))
  (at level 10, x pattern, c1 at level 100, c2 at level 200) : build_scope.
Open Scope build_scope.

(** [args.name] *)
Definition attr (args : Namespace) (name : string) : Exn + Value :=
  match args !! name with
  | Some v => inr v
  | None => inl (AttributeError name)
  end.

(** [hasattr(args, name)] *)
Definition hasattr (args : Namespace) (name : string) : bool :=
  match args !! name with
  | Some _ => true
  | None => false
  end.

(** The truth value of an object in a condition. *)
Definition truthy (v : Value) : bool :=
  match v with
  | VNone => false
  | VBool b => b
  | VInt n => negb (Z.eqb n 0)
  | VFloat q => negb (Qeq_bool q 0)
  | VStr s => negb (String.eqb s "")
  end.

(** [s.split(",")] on a string *)
Fixpoint split_comma (s : string) : list string :=
  match s with
  | EmptyString => [EmptyString]
  | String c s' =>
      if Ascii.eqb c ","%char then EmptyString :: split_comma s'
      else match split_comma s' with
           | p :: ps => String c p :: ps
           | [] => [String c EmptyString]
           end
  end.

(** [v.split(",")]: only a string has the method. *)
Definition split (v : Value) : Exn + list string :=
  match v with
  | VStr s => inr (split_comma s)
  | _ => inl (AttributeError "split")
  end.

(** The keyword arguments [RobertaEncoder.__init__] hands to
    [SMLPSentenceEncoder]. *)
Record SentenceEncoderKwargs : Type := {
  padding_idx : N;
  vocab_size : N;
  num_encoder_layers : Value;
  embedding_dim : Value;
  embedding_type : string;
  dropout : Value;
  max_seq_len : Value;
  use_position_embeddings : Value;
  offset_positions_by_padding : bool;
  encoder_normalize_before : Value;
  learned_pos_embedding : Value;
  sen_rep_type : Value;
  freeze : Value
}.

(** The arguments it hands to [SMLPLMHead]; [weight_tied] when [weight] is
    the embedding matrix of the sentence encoder rather than [None]. *)
Record LMHeadKwargs : Type := {
  embed_dim : Value;
  output_dim : N;
  lm_activation_fn : Value;
  weight_tied : bool
}.

Record RobertaEncoder : Type := {
  encoder_args : Namespace;          (* [self.args], the caller's object *)
  sentence_encoder : SentenceEncoderKwargs;
  lm_head : LMHeadKwargs
}.

(** [RobertaEncoder.__init__(args, dictionary)], with [dictionary.pad()]
    and [len(dictionary)] given. *)
Definition RobertaEncoder_init (args : Namespace) (pad len_dictionary : N)
  : Exn + RobertaEncoder :=
  let* keep := attr args "encoder_layers_to_keep" in
  let* args :=
    if truthy keep then
      let* pieces := split keep in
      inr (setattr "encoder_layers" (VInt (Z.of_nat (length pieces))) args)
    else inr args in
  let* num_encoder_layers := attr args "encoder_layers" in
  let* embedding_dim := attr args "encoder_embed_dim" in
  let* dropout := attr args "dropout" in
  let* max_seq_len := attr args "max_positions" in
  let* use_position_embeddings := attr args "use_position_embeddings" in
  let encoder_normalize_before := getattr args "encoder_normalize_before" (VBool false) in
  let* learned_pos_embedding := attr args "encoder_learned_pos" in
  let sen_rep_type := getattr args "sen_rep_type" (VStr "cls") in
  let freeze := getattr args "freeze" (VBool false) in
  let sentence_encoder :=
    {| padding_idx := pad;
       vocab_size := len_dictionary;
       num_encoder_layers := num_encoder_layers;
       embedding_dim := embedding_dim;
       embedding_type := "sparse";
       dropout := dropout;
       max_seq_len := max_seq_len;
       use_position_embeddings := use_position_embeddings;
       offset_positions_by_padding := true;
       encoder_normalize_before := encoder_normalize_before;
       learned_pos_embedding := learned_pos_embedding;
       sen_rep_type := sen_rep_type;
       freeze := freeze |} in
  let args := assign "untie_weights_roberta" "untie_weights_roberta" (VBool false) args in
  let* embed_dim := attr args "encoder_embed_dim" in
  let* activation_fn := attr args "activation_fn" in
  let* untie := attr args "untie_weights_roberta" in
  inr {| encoder_args := args;
         sentence_encoder := sentence_encoder;
         lm_head := {| embed_dim := embed_dim;
                       output_dim := len_dictionary;
                       lm_activation_fn := activation_fn;
                       weight_tied := negb (truthy untie) |} |}.


(** The model [cls(args, encoder)] builds: its [args], its encoder, and
    no classification head yet. *)
Record BuiltModel : Type := {
  model_args : Namespace;
  encoder : RobertaEncoder;
  built_heads : list (string * Model.SMLPClassificationHead)
}.

(** [SMLP_MLM_Model.build_model(args, task)], with [task.source_dictionary]
    given by its [pad()] and its length. *)
Definition build_model (args : Namespace) (pad len_dictionary : N) : Exn + BuiltModel :=
  (* make sure all arguments are present *)
  let args := base_architecture args in
  let* args :=
    if negb (hasattr args "max_positions") then
      let* tokens_per_sample := attr args "tokens_per_sample" in
      inr (setattr "max_positions" tokens_per_sample args)
    else inr args in
  let* encoder := RobertaEncoder_init args pad len_dictionary in
  inr {| model_args := encoder_args encoder; encoder := encoder; built_heads := [] |}.



End Build.

(* ===================================================================== *)
(** * Further vocabulary for the upgrade *)
(* ===================================================================== *)

Module Loaded.
Import Model.

(** The state of the head holds its two weights, each with the head's
    [out_features] as first dimension. *)
Definition head_has_weights (h : SMLPClassificationHead) : Prop :=
  (exists w r, Py.get (head_state_dict h) "out_proj.weight" = Some w
               /\ shape w = out_features (out_proj h) :: r)
  /\ (exists w r, Py.get (head_state_dict h) "dense.weight" = Some w
                  /\ shape w = out_features (dense h) :: r).

Definition heads_have_weights (heads : list (string * SMLPClassificationHead)) : Prop :=
  forall hn h, Py.get heads hn = Some h -> head_has_weights h.

(** Under the classification-heads namespace the blob holds exactly the
    current state of the model's heads. *)
Definition holds_own_heads (prefix : string) (m : SMLP_MLM_Model) (sd : StateDict) : Prop :=
  forall k, head_key prefix k = true ->
    Py.get sd k = Py.get (heads_state_dict (classification_heads m))
                         (Py.drop (String.length (prefix +:+ "classification_heads.")) k).

(** The state dict a model saves for its heads, under [prefix]. *)
Definition own_heads_blob (prefix : string) (m : SMLP_MLM_Model) : StateDict :=
  map (fun '(k, v) => (prefix +:+ "classification_heads." +:+ k, v))
      (heads_state_dict (classification_heads m)).

(** Every head has a spectral-normalised [out_proj]. *)
Definition spectral_heads (heads : list (string * SMLPClassificationHead)) : Prop :=
  forall hn h, Py.get heads hn = Some h -> exists oid l, out_proj h = spectral_norm oid l.

(** A model built with the arguments [a], after
    [register_classification_head(name, num_classes)], handed the state
    dict it saves for its heads. *)
Definition saved_state (a : Args) (name : string) (num_classes : N) : St :=
  let st := (register_classification_head name num_classes None
               {| self := {| args := a; classification_heads := []; next_object := 0 |};
                  state_dict := [];
                  logged := [] |}).2 in
  set_state_dict st (own_heads_blob "" (self st)).

(** Arguments that ask for a spectral-normalised head, without
    quantisation noise. *)
Definition spectral_args : Args :=
  {| encoder_embed_dim := 512;
     pooler_activation_fn := "tanh";
     pooler_dropout := 0;
     quant_noise_pq := 0;
     quant_noise_pq_block_size := 8;
     spectral_norm_classification_head := true;
     args_sen_rep_type := "cls";
     load_checkpoint_heads := None |}.

End Loaded.

(* ===================================================================== *)
(** * Facts about the presets *)
(* ===================================================================== *)

Module ArchFacts.
Import Arch.

(** Both sides unfold to the same chain of [assign]. *)
Ltac lines_refl :=
  cbv beta iota zeta delta
    [run foldl exec dflt base_lines complex_lines task_lines gate_line app fst snd
     base_architecture smlp_mlm_complex_architecture smlp_mlm_complex_architecture_mp
     smlp_mlm_complex_architecture_test1 smlp_mlm_complex_architecture_sst2
     smlp_mlm_complex_architecture_qqp_gate smlp_mlm_complex_architecture_sst2_gate
     smlp_mlm_complex_architecture_cola smlp_mlm_complex_architecture_cola_gate
     smlp_mlm_complex_architecture_mrpc smlp_mlm_complex_architecture_mrpc_gate
     smlp_mlm_complex_architecture_test1_base_mnli
     smlp_mlm_complex_architecture_test1_base_mnli_gate smlp_mlm_complex_gate
     smlp_mlm_complex_architecture_qnli smlp_mlm_complex_architecture_qnli_gate
     smlp_mlm_complex_architecture_imdb smlp_mlm_complex_architecture_imdb_gate];
  reflexivity.

Lemma registry_lines :
  Forall2 (fun nf np => nf.1 = np.1 /\ forall args, nf.2 args = run np.2 args)
          ARCH_CONFIG_REGISTRY ARCH_LINES.
Proof.
  unfold ARCH_CONFIG_REGISTRY, ARCH_LINES.
  repeat (constructor; [split; [reflexivity | intros args; lines_refl] |]).
  constructor.
Qed.

Lemma registry_lookup_lines name f :
  registry_lookup ARCH_CONFIG_REGISTRY name = Some f ->
  exists p, (name, p) ∈ ARCH_LINES /\ forall args, f args = run p args.
Proof.
  generalize registry_lines.
  generalize ARCH_CONFIG_REGISTRY ARCH_LINES.
  induction 1 as [| [n g] [n' p] reg lines [Hn Hrun] _ IH]; simpl; [discriminate |].
  simpl in Hn, Hrun. subst n'.
  destruct (String.eqb_spec n name) as [-> | _].
  - intros [= <-]. exists p. split; [left | exact Hrun].
  - intros H. destruct (IH H) as (p' & Hin & Hp'). exists p'. split; [by right | done].
Qed.

Lemma run_app p q args : run (p ++ q) args = run q (run p args).
Proof. unfold run. apply foldl_app. Qed.

Lemma run_cons s p args : run (s :: p) args = run p (exec s args).
Proof. reflexivity. Qed.

Lemma existsb_eqb_false k l : existsb (String.eqb k) l = false -> k ∉ l.
Proof.
  induction l as [| x l IH]; simpl; [intros _; apply not_elem_of_nil |].
  destruct (String.eqb_spec k x); [discriminate |].
  intros H. apply not_elem_of_cons. auto.
Qed.

(** A name no line writes keeps its value, set or unset. *)
Lemma run_lookup_unwritten p args k :
  k ∉ dsts p -> run p args !! k = args !! k.
Proof.
  revert args. induction p as [| [[dst src] d] p IH]; intros args Hk; [done |].
  rewrite run_cons. simpl in Hk. apply not_elem_of_cons in Hk as [Hne Hk].
  rewrite IH by done. unfold exec, assign, setattr. by rewrite lookup_insert_ne.
Qed.

(** A name some line writes is set afterwards. *)
Lemma run_lookup_written p args k :
  k ∈ dsts p -> is_Some (run p args !! k).
Proof.
  revert args. induction p as [| [[dst src] d] p IH]; intros args Hk.
  - by apply elem_of_nil in Hk.
  - rewrite run_cons. simpl in Hk.
    destruct (decide (k ∈ dsts p)) as [Hin | Hnin]; [by apply IH |].
    apply elem_of_cons in Hk as [-> | Hin]; [| done].
    rewrite run_lookup_unwritten by done.
    unfold exec, assign, setattr. rewrite lookup_insert_eq. by eexists.
Qed.

(** Plain defaults never touch an option that is already set. *)
Lemma run_keeps_set p args k v :
  (forall dst src d, (dst, src, d) ∈ p -> dst = k -> src = k) ->
  args !! k = Some v -> run p args !! k = Some v.
Proof.
  revert args. induction p as [| [[dst src] d] p IH]; intros args Hp Hk; [done |].
  rewrite run_cons. apply IH.
  - intros dst' src' d' Hin. apply (Hp dst' src' d'). by right.
  - unfold exec, assign, setattr, getattr.
    destruct (decide (dst = k)) as [-> | Hne].
    + rewrite (Hp k src d); [| left | done]. by rewrite Hk, lookup_insert_eq.
    + by rewrite lookup_insert_ne.
Qed.

Lemma plain_but_spectral_spec p k :
  plain_but_spectral p = true -> k <> spectral_norm_key ->
  forall dst src d, (dst, src, d) ∈ p -> dst = k -> src = k.
Proof.
  unfold plain_but_spectral. rewrite forallb_forall.
  intros Hall Hk dst src d Hin ->.
  apply list_elem_of_In, Hall in Hin. simpl in Hin.
  apply orb_true_iff in Hin as [H | H].
  - by apply String.eqb_eq in H.
  - by apply String.eqb_eq in H.
Qed.

(** The first line that writes an unset option decides it, when the later
    lines that write it are plain defaults. *)
Lemma run_first_default p args k d :
  (forall dst src d', (dst, src, d') ∈ p -> dst = k -> src = k) ->
  args !! k = None -> first_default p k = Some d -> run p args !! k = Some d.
Proof.
  revert args. induction p as [| [[dst src] d'] p IH]; intros args Hp Hk Hfd; [done |].
  rewrite run_cons. simpl in Hfd.
  assert (Hp' : forall dst src d', (dst, src, d') ∈ p -> dst = k -> src = k).
  { intros dst0 src0 d0 Hin. apply (Hp dst0 src0 d0). by right. }
  destruct (String.eqb_spec dst k) as [-> | Hne].
  - injection Hfd as ->. apply run_keeps_set; [done |].
    rewrite (Hp k src d); [| left | done].
    unfold exec, assign, setattr, getattr. by rewrite Hk, lookup_insert_eq.
  - apply IH; [done | | done].
    unfold exec, assign, setattr. by rewrite lookup_insert_ne.
Qed.

(** The value the last line writing [dst] leaves there, when every line
    before it leaves its source alone. *)
Lemma run_last_write p1 p2 dst src d args :
  src ∉ dsts p1 -> dst ∉ dsts p2 ->
  run (p1 ++ (dst, src, d) :: p2) args !! dst = Some (getattr args src d).
Proof.
  intros H1 H2. rewrite run_app, run_cons, run_lookup_unwritten by done.
  unfold exec, assign, setattr. rewrite lookup_insert_eq.
  unfold getattr. by rewrite run_lookup_unwritten.
Qed.

Lemma run_at_rest p args : Forall (at_rest args) p -> run p args = args.
Proof.
  induction 1 as [| [[dst src] d] p Hs _ IH]; [done |].
  rewrite run_cons. unfold at_rest in Hs. simpl in Hs.
  unfold exec, assign, setattr. by rewrite insert_id.
Qed.

Lemma settled_at_rest p1 p2 args :
  settled (dsts (p1 ++ p2)) p2 = true ->
  Forall (at_rest (run (p1 ++ p2) args)) p2.
Proof.
  revert p1. induction p2 as [| [[dst src] d] p2 IH]; intros p1 Hs; [constructor |].
  simpl in Hs. apply andb_true_iff in Hs as [Hline Hrest].
  constructor.
  - unfold at_rest. simpl.
    apply orb_true_iff in Hline as [Heq | Hlast].
    + apply String.eqb_eq in Heq. subst src.
      assert (Hw : is_Some (run (p1 ++ (dst, dst, d) :: p2) args !! dst)).
      { apply run_lookup_written. unfold dsts. rewrite map_app. apply elem_of_app. right. left. }
      unfold getattr. destruct (run _ args !! dst); [done | by apply is_Some_None in Hw].
    + apply andb_true_iff in Hlast as [Hsrc Hdst].
      apply negb_true_iff, existsb_eqb_false in Hsrc.
      apply negb_true_iff, existsb_eqb_false in Hdst.
      rewrite run_last_write; [| | done].
      * unfold getattr at 2. by rewrite run_lookup_unwritten.
      * intros Hin. apply Hsrc. unfold dsts. rewrite map_app. apply elem_of_app. by left.
  - specialize (IH (p1 ++ [(dst, src, d)])).
    rewrite <- !app_assoc in IH. simpl in IH. by apply IH.
Qed.

(** Running settled lines a second time changes nothing. *)
Lemma run_idempotent p args :
  settled (dsts p) p = true -> run p (run p args) = run p args.
Proof.
  intros Hs. apply run_at_rest. by apply (settled_at_rest []).
Qed.

Lemma arch_lines_checked :
  Forall (fun np => plain_but_spectral np.2 = true /\ settled (dsts np.2) np.2 = true
                    /\ spectral_nrom_key ∉ dsts np.2)
         ARCH_LINES.
Proof.
  unfold ARCH_LINES.
  repeat (constructor;
          [split; [vm_compute; reflexivity
                  | split; [vm_compute; reflexivity
                           | apply existsb_eqb_false; vm_compute; reflexivity]] |]).
  constructor.
Qed.

Lemma arch_lines_spec name p :
  (name, p) ∈ ARCH_LINES ->
  plain_but_spectral p = true /\ settled (dsts p) p = true /\ spectral_nrom_key ∉ dsts p.
Proof.
  intros Hin. exact (proj1 (Forall_forall _ _) arch_lines_checked _ Hin).
Qed.

(** Every registered preset ends in the root preset. *)
Lemma arch_lines_end_in_base :
  Forall (fun np => exists own, np.2 = own ++ base_lines) ARCH_LINES.
Proof.
  unfold ARCH_LINES.
  repeat (constructor; [simpl; first
    [ by exists []
    | by eexists [_]
    | by eexists [_; _]
    | by eexists [_; _; _; _; _; _; _; _; _]
    | by eexists [_; _; _; _; _; _; _; _; _; _]
    | by eexists [_; _; _; _; _; _; _; _; _; _; _]
    | by eexists [_; _; _; _; _; _; _; _; _; _; _; _; _; _; _; _]
    | by eexists [_; _; _; _; _; _; _; _; _; _; _; _; _; _; _; _; _]
    | by eexists [_; _; _; _; _; _; _; _; _; _; _; _; _; _; _; _; _; _] ] |]).
  constructor.
Qed.

(** What every registered preset leaves in the misspelt line's target. *)
Lemma run_spectral_norm name p args :
  (name, p) ∈ ARCH_LINES ->
  run p args !! spectral_norm_key = Some (getattr args spectral_nrom_key (VBool false)).
Proof.
  intros Hin.
  destruct (arch_lines_spec _ _ Hin) as (_ & _ & Hnrom).
  destruct (proj1 (Forall_forall _ _) arch_lines_end_in_base _ Hin) as [own Hown].
  simpl in Hown. subst p.
  change base_lines with
    (take 9 base_lines ++ (spectral_norm_key, spectral_nrom_key, VBool false)
       :: drop 10 base_lines) in *.
  rewrite app_assoc. rewrite app_assoc in Hnrom.
  apply run_last_write.
  - intros Hin'. apply Hnrom. unfold dsts. rewrite map_app. apply elem_of_app. by left.
  - apply existsb_eqb_false. vm_compute. reflexivity.
Qed.

Lemma arch_lines_lookup name p :
  (name, p) ∈ ARCH_LINES ->
  exists f, registry_lookup ARCH_CONFIG_REGISTRY name = Some f
            /\ forall args, f args = run p args.
Proof.
  assert (Hnd : NoDup (map fst ARCH_LINES)).
  { apply (bool_decide_unpack _). vm_compute. reflexivity. }
  revert Hnd. generalize registry_lines.
  generalize ARCH_CONFIG_REGISTRY ARCH_LINES.
  induction 1 as [| [n g] [n' q] reg lines [Hn Hrun] _ IH]; simpl.
  - intros _ Hin. by apply elem_of_nil in Hin.
  - simpl in Hn, Hrun. subst n'. intros Hnd Hin.
    apply NoDup_cons in Hnd as [Hfresh Hnd].
    apply elem_of_cons in Hin as [[= -> ->] | Hin].
    + rewrite String.eqb_refl. by exists g.
    + destruct (String.eqb_spec n name) as [-> | _]; [| by apply IH].
      exfalso. apply Hfresh. apply list_elem_of_fmap. by exists (name, p).
Qed.

Lemma resolve_lines name args r :
  resolve name args = Some r ->
  exists p, (name, p) ∈ ARCH_LINES /\ r = run p args.
Proof.
  unfold resolve.
  destruct (registry_lookup ARCH_CONFIG_REGISTRY name) as [f |] eqn:Hf; [| discriminate].
  intros [= <-]. destruct (registry_lookup_lines _ _ Hf) as (p & Hin & Hp).
  exists p. by rewrite Hp.
Qed.

Lemma lines_resolve name p args :
  (name, p) ∈ ARCH_LINES -> resolve name args = Some (run p args).
Proof.
  intros Hin. destruct (arch_lines_lookup _ _ Hin) as (f & Hf & Hp).
  unfold resolve. by rewrite Hf, Hp.
Qed.

(** C1 (defect of the code). A caller-supplied
    [spectral_norm_classification_head = True] does not survive resolution:
    for every registered preset, on every caller configuration that sets it
    (and does not happen to carry the misspelt attribute), the resolved
    record holds [False] there. The root preset reads the option under the
    name [spectral_nrom_classification_head]. *)
Theorem resolve_overwrites_spectral_norm (name : string) (args : Namespace) :
  match resolve name (<[spectral_norm_key := VBool true]> (delete spectral_nrom_key args)) with
  | Some r => r !! spectral_norm_key = Some (VBool false)
  | None => registry_lookup ARCH_CONFIG_REGISTRY name = None
  end.
Proof.
  destruct (resolve name _) as [r |] eqn:Hr.
  - apply resolve_lines in Hr as (p & Hin & ->).
    rewrite (run_spectral_norm _ _ _ Hin). unfold getattr.
    rewrite lookup_insert_ne by done. by rewrite lookup_delete_eq.
  - unfold resolve in Hr. by destruct (registry_lookup ARCH_CONFIG_REGISTRY name).
Qed.

(** C4 (defect of the code). Resolution changes a fully populated record:
    take the record [r] a first resolution produced, with the option
    [spectral_norm_classification_head] set to [True]. Every option the
    preset writes is set in it, and resolving it again puts [False] back. *)
Theorem resolve_changes_populated_record (name : string) (args : Namespace) :
  match resolve name args with
  | Some r =>
      let full := <[spectral_norm_key := VBool true]> (delete spectral_nrom_key r) in
      (forall k, is_Some (r !! k) -> k <> spectral_nrom_key -> is_Some (full !! k))
      /\ full !! spectral_norm_key = Some (VBool true)
      /\ exists r', resolve name full = Some r'
                    /\ r' !! spectral_norm_key = Some (VBool false)
                    /\ r' <> full
  | None => registry_lookup ARCH_CONFIG_REGISTRY name = None
  end.
Proof.
  destruct (resolve name args) as [r |] eqn:Hr.
  - apply resolve_lines in Hr as (p & Hin & ->). simpl.
    split; [| split].
    + intros k Hk Hne. destruct (decide (k = spectral_norm_key)) as [-> | Hne'].
      * rewrite lookup_insert_eq. by eexists.
      * rewrite lookup_insert_ne by done. by rewrite lookup_delete_ne.
    + apply lookup_insert_eq.
    + eexists. split; [by apply lines_resolve |].
      assert (Hval : run p (<[spectral_norm_key := VBool true]>
                              (delete spectral_nrom_key (run p args)))
                       !! spectral_norm_key = Some (VBool false)).
      { rewrite (run_spectral_norm _ _ _ Hin). unfold getattr.
        rewrite lookup_insert_ne by done. by rewrite lookup_delete_eq. }
      split; [done |].
      intros Heq. rewrite Heq, lookup_insert_eq in Hval. discriminate.
  - unfold resolve in Hr. by destruct (registry_lookup ARCH_CONFIG_REGISTRY name).
Qed.

(** X1. Every other caller-supplied option keeps its value, for every
    registered preset. *)
Theorem resolve_keeps_supplied (name : string) (args r : Namespace) (k : string) (v : Value) :
  resolve name args = Some r ->
  k <> spectral_norm_key ->
  args !! k = Some v ->
  r !! k = Some v.
Proof.
  intros Hr Hk Hv. apply resolve_lines in Hr as (p & Hin & ->).
  destruct (arch_lines_spec _ _ Hin) as (Hplain & _ & _).
  apply run_keeps_set; [| done]. by apply plain_but_spectral_spec.
Qed.

Lemma resolve_keeps_supplied_witness :
  (base_architecture {[ "encoder_layers" := VInt 24 ]}) !! "encoder_layers" = Some (VInt 24).
Proof.
  apply (resolve_keeps_supplied "smlp_mlm" {[ "encoder_layers" := VInt 24 ]}).
  - reflexivity.
  - discriminate.
  - apply lookup_singleton_eq.
Defined.

(** X2. An option the caller left unset ends with the default of the first
    line that writes it; the lines of a descendant preset run before those
    of the presets it calls, so its default is the one that stays. *)
Theorem resolve_most_derived_default (name : string) (p : list Stmt) (args r : Namespace)
    (k : string) (d : Value) :
  (name, p) ∈ ARCH_LINES ->
  resolve name args = Some r ->
  k <> spectral_norm_key ->
  args !! k = None ->
  first_default p k = Some d ->
  r !! k = Some d.
Proof.
  intros Hin Hr Hk Hnone Hd.
  rewrite (lines_resolve _ _ args Hin) in Hr. injection Hr as <-.
  destruct (arch_lines_spec _ _ Hin) as (Hplain & _ & _).
  apply run_first_default; [| done | done]. by apply plain_but_spectral_spec.
Qed.

Lemma resolve_most_derived_default_witness :
  (smlp_mlm_complex_architecture ∅) !! "complex" = Some (VBool true).
Proof.
  apply (resolve_most_derived_default "smlp_mlm_complex" complex_lines ∅).
  - right. left.
  - reflexivity.
  - discriminate.
  - apply lookup_empty.
  - reflexivity.
Defined.

(** X3. Resolving the record a resolution produced gives that record back. *)
Theorem resolve_resolved (name : string) (args r : Namespace) :
  resolve name args = Some r -> resolve name r = Some r.
Proof.
  intros Hr. apply resolve_lines in Hr as (p & Hin & ->).
  rewrite (lines_resolve _ _ _ Hin). f_equal.
  apply run_idempotent. by destruct (arch_lines_spec _ _ Hin) as (_ & ? & _).
Qed.

Lemma resolve_resolved_witness :
  resolve "smlp_mlm_complex_mnli_gate"
          (smlp_mlm_complex_architecture_test1_base_mnli_gate ∅)
  = Some (smlp_mlm_complex_architecture_test1_base_mnli_gate ∅).
Proof.
  apply (resolve_resolved "smlp_mlm_complex_mnli_gate" ∅). reflexivity.
Defined.

End ArchFacts.

(* ===================================================================== *)
(** * Facts about strings and dictionaries *)
(* ===================================================================== *)

Module PyFacts.

Lemma append_cons c a b : String c a +:+ b = String c (a +:+ b).
Proof. reflexivity. Qed.

Lemma append_nil_l s : "" +:+ s = s.
Proof. reflexivity. Qed.

Lemma append_assoc a b c : (a +:+ b) +:+ c = a +:+ (b +:+ c).
Proof. induction a as [| x a IH]; [done |]. by rewrite !append_cons, IH. Qed.

Lemma append_inj_l p a b : p +:+ a = p +:+ b -> a = b.
Proof. apply String.app_inj. Qed.

Lemma startswith_app p s : Py.startswith (p +:+ s) p = true.
Proof.
  unfold Py.startswith. induction p as [| c p IH]; [by destruct s |].
  rewrite append_cons. simpl. by destruct (ascii_dec c c).
Qed.

Lemma startswith_app_cancel p a b :
  Py.startswith (p +:+ a) (p +:+ b) = Py.startswith a b.
Proof.
  unfold Py.startswith. induction p as [| c p IH]; [done |].
  rewrite !append_cons. simpl. by destruct (ascii_dec c c).
Qed.

Lemma drop_app p s : Py.drop (String.length p) (p +:+ s) = s.
Proof. induction p as [| c p IH]; [done |]. rewrite append_cons. simpl. exact IH. Qed.

Lemma startswith_drop k p :
  Py.startswith k p = true -> k = p +:+ Py.drop (String.length p) k.
Proof.
  unfold Py.startswith. revert k. induction p as [| c p IH]; intros k H; [done |].
  destruct k as [| c' k]; simpl in H; [discriminate |].
  destruct (ascii_dec c c') as [-> | _]; [| discriminate].
  rewrite append_cons. simpl. f_equal. by apply IH.
Qed.

(** A string is either not under [p], or it is [p] followed by a rest. *)
Lemma startswith_iff k p : Py.startswith k p = true <-> exists r, k = p +:+ r.
Proof.
  split.
  - intros H. eexists. by apply startswith_drop.
  - intros [r ->]. apply startswith_app.
Qed.

(** Two names with different heads: nothing is under both. *)
Lemma startswith_disjoint k p a b :
  Py.startswith a b = false -> Py.startswith b a = false ->
  Py.startswith k (p +:+ a) = true -> Py.startswith k (p +:+ b) = false.
Proof.
  intros Hab Hba Ha. apply startswith_iff in Ha as [r ->].
  rewrite append_assoc, startswith_app_cancel.
  destruct (Py.startswith (a +:+ r) b) eqn:Hb; [| done].
  apply startswith_iff in Hb as [r' Hr'].
  exfalso. clear p. revert b r r' Hab Hba Hr'.
  induction a as [| c a IH]; intros [| c' b] r r' Hab Hba Hr'; try discriminate.
  rewrite !append_cons in Hr'. injection Hr' as -> Hr'.
  unfold Py.startswith in *. simpl in Hab, Hba.
  destruct (ascii_dec c' c') as [_ | ?]; [| done].
  by apply (IH b r r').
Qed.

(** ** The first segment of a dotted path *)

Abbreviation dot_free := Py.dot_free.

Lemma split_dot_first_dot_free s : dot_free (Py.split_dot_first s).
Proof.
  unfold Py.dot_free. induction s as [| c s IH]; [done |]. simpl.
  destruct (Ascii.eqb c ".") eqn:Hc; [done |]. simpl. by rewrite Hc, IH.
Qed.

Lemma split_dot_first_app hn s :
  dot_free hn -> Py.split_dot_first (hn +:+ "." +:+ s) = hn.
Proof.
  unfold Py.dot_free. induction hn as [| c hn IH]; [done |].
  rewrite append_cons. simpl. destruct (Ascii.eqb c "."); [discriminate |].
  intros [= H]. f_equal. by apply IH.
Qed.

Lemma dotted_inj a b x y :
  dot_free a -> dot_free b -> a +:+ "." +:+ x = b +:+ "." +:+ y -> a = b /\ x = y.
Proof.
  intros Ha Hb Heq.
  assert (a = b) as ->.
  { rewrite <- (split_dot_first_app a x Ha), Heq. by apply split_dot_first_app. }
  split; [done |]. apply append_inj_l in Heq. by injection Heq.
Qed.

(** ** Dictionaries *)

Section Dict.
Context {V : Type}.
Implicit Types (d : list (string * V)) (k : string) (v : V).

Lemma get_set d k v k' :
  Py.get (Py.set d k v) k' = if String.eqb k k' then Some v else Py.get d k'.
Proof.
  induction d as [| [k0 v0] d IH]; simpl.
  - by destruct (String.eqb k k').
  - destruct (String.eqb_spec k0 k) as [-> | Hne]; simpl.
    + by destruct (String.eqb k k').
    + rewrite IH. destruct (String.eqb_spec k0 k') as [-> | _]; [| done].
      by destruct (String.eqb_spec k k') as [-> | _].
Qed.

Lemma get_set_eq d k v : Py.get (Py.set d k v) k = Some v.
Proof. by rewrite get_set, String.eqb_refl. Qed.

Lemma get_set_ne d k v k' : k <> k' -> Py.get (Py.set d k v) k' = Py.get d k'.
Proof. intros H. rewrite get_set. by destruct (String.eqb_spec k k'). Qed.

Lemma get_remove d k k' :
  Py.get (Py.remove d k) k' = if String.eqb k k' then None else Py.get d k'.
Proof.
  induction d as [| [k0 v0] d IH]; simpl.
  - by destruct (String.eqb k k').
  - destruct (String.eqb_spec k0 k) as [-> | Hne]; simpl.
    + rewrite IH. by destruct (String.eqb k k').
    + rewrite IH. destruct (String.eqb_spec k0 k') as [-> | _]; [| done].
      by destruct (String.eqb_spec k k') as [-> | _].
Qed.

Lemma get_remove_eq d k : Py.get (Py.remove d k) k = None.
Proof. by rewrite get_remove, String.eqb_refl. Qed.

Lemma get_remove_ne d k k' : k <> k' -> Py.get (Py.remove d k) k' = Py.get d k'.
Proof. intros H. rewrite get_remove. by destruct (String.eqb_spec k k'). Qed.

Lemma get_keys d k : is_Some (Py.get d k) <-> k ∈ Py.keys d.
Proof.
  unfold Py.keys. induction d as [| [k0 v0] d IH]; simpl.
  - split; [by intros [? ?] | by intros ?%elem_of_nil].
  - destruct (String.eqb_spec k0 k) as [-> | Hne].
    + split; [intros _; left | by eexists].
    + rewrite IH. split; [by right | by intros [? | ?]%elem_of_cons].
Qed.

Lemma get_keys_Some d k v : Py.get d k = Some v -> k ∈ Py.keys d.
Proof. intros H. apply get_keys. by eexists. Qed.

Lemma get_None_keys d k : Py.get d k = None <-> k ∉ Py.keys d.
Proof. rewrite <- get_keys, eq_None_not_Some. done. Qed.

Lemma contains_keys d k : Py.contains d k = true <-> k ∈ Py.keys d.
Proof.
  rewrite <- get_keys. unfold Py.contains.
  destruct (Py.get d k); split; intros H; try done; by destruct H.
Qed.

Lemma keys_set d k v :
  Py.keys (Py.set d k v) = if Py.contains d k then Py.keys d else Py.keys d ++ [k].
Proof.
  unfold Py.contains, Py.keys. induction d as [| [k0 v0] d IH]; simpl; [done |].
  destruct (String.eqb_spec k0 k) as [-> | Hne]; simpl; [done |].
  rewrite IH. by destruct (Py.get d k).
Qed.

Lemma keys_remove d k : Py.keys (Py.remove d k) = filter (fun k' => k' <> k) (Py.keys d).
Proof.
  unfold Py.keys. induction d as [| [k0 v0] d IH]; simpl; [done |].
  destruct (String.eqb_spec k0 k) as [-> | Hne].
  - rewrite filter_cons_False by (simpl; congruence). exact IH.
  - rewrite filter_cons_True by done. simpl. by rewrite IH.
Qed.

Lemma NoDup_keys_set d k v : NoDup (Py.keys d) -> NoDup (Py.keys (Py.set d k v)).
Proof.
  intros Hnd. rewrite keys_set. destruct (Py.contains d k) eqn:Hc; [done |].
  apply NoDup_app. split; [done |]. split; [| apply NoDup_singleton].
  intros x Hx ->%list_elem_of_singleton.
  apply contains_keys in Hx. congruence.
Qed.

Lemma NoDup_keys_remove d k : NoDup (Py.keys d) -> NoDup (Py.keys (Py.remove d k)).
Proof. intros Hnd. rewrite keys_remove. by apply NoDup_filter. Qed.

Lemma get_app d1 d2 k :
  Py.get (d1 ++ d2) k = match Py.get d1 k with Some v => Some v | None => Py.get d2 k end.
Proof.
  induction d1 as [| [k0 v0] d1 IH]; simpl; [done |].
  by destruct (String.eqb k0 k).
Qed.

(** Looking up under a common prefix of the keys. *)
Lemma get_map_prefix p d k :
  Py.get (map (fun '(k', v) => (p +:+ k', v)) d) (p +:+ k) = Py.get d k.
Proof.
  induction d as [| [k0 v0] d IH]; simpl; [done |].
  rewrite IH. destruct (String.eqb_spec k0 k) as [-> | Hne].
  - by rewrite String.eqb_refl.
  - destruct (String.eqb_spec (p +:+ k0) (p +:+ k)) as [Heq | _]; [| done].
    by apply append_inj_l in Heq.
Qed.

Lemma get_map_prefix_None p d k :
  Py.startswith k p = false ->
  Py.get (map (fun '(k', v) => (p +:+ k', v)) d) k = None.
Proof.
  intros Hk. induction d as [| [k0 v0] d IH]; simpl; [done |].
  destruct (String.eqb_spec (p +:+ k0) k) as [<- | _]; [| done].
  by rewrite startswith_app in Hk.
Qed.
End Dict.

End PyFacts.

(* ===================================================================== *)
(** * Facts about head registration and the state-dict upgrade *)
(* ===================================================================== *)

Module ModelFacts.
Import Model PyFacts.

(** ** Legacy keys *)

Lemma legacy_iff prefix k : legacy prefix k = true <-> exists r, k = prefix +:+ "decoder" +:+ r.
Proof.
  unfold legacy. rewrite startswith_iff.
  split; intros [r ->]; exists r; by rewrite append_assoc.
Qed.

Lemma renamed_legacy prefix r :
  renamed prefix (prefix +:+ "decoder" +:+ r) = prefix +:+ "encoder" +:+ r.
Proof. unfold renamed. by rewrite <- (append_assoc prefix "decoder" r), drop_app. Qed.

Lemma legacy_of_renamed prefix r :
  legacy_of prefix (prefix +:+ "encoder" +:+ r) = prefix +:+ "decoder" +:+ r.
Proof. unfold legacy_of. by rewrite <- (append_assoc prefix "encoder" r), drop_app. Qed.

Lemma encoder_not_legacy prefix r : legacy prefix (prefix +:+ "encoder" +:+ r) = false.
Proof. unfold legacy. by rewrite startswith_app_cancel. Qed.

Lemma legacy_not_encoder prefix r :
  Py.startswith (prefix +:+ "decoder" +:+ r) (prefix +:+ "encoder") = false.
Proof. by rewrite startswith_app_cancel. Qed.

Lemma encoder_iff prefix k :
  Py.startswith k (prefix +:+ "encoder") = true <-> exists r, k = prefix +:+ "encoder" +:+ r.
Proof.
  rewrite startswith_iff. split; intros [r ->]; exists r; by rewrite append_assoc.
Qed.

Lemma rename_spec_nil prefix sd k : rename_spec prefix [] sd k = Py.get sd k.
Proof.
  unfold rename_spec.
  rewrite !bool_decide_eq_false_2 by apply not_elem_of_nil.
  rewrite andb_false_r. by destruct (legacy prefix k).
Qed.

Lemma rename_spec_skip prefix k0 ks sd k :
  legacy prefix k0 = false ->
  rename_spec prefix (k0 :: ks) sd k = rename_spec prefix ks sd k.
Proof.
  intros Hk0. unfold rename_spec.
  destruct (legacy prefix k) eqn:Hk.
  - assert (k <> k0) by congruence.
    destruct (decide (k ∈ ks)).
    + rewrite !bool_decide_eq_true_2; [done | done | by right].
    + rewrite !bool_decide_eq_false_2; [done | done |].
      by intros [? | ?]%elem_of_cons.
  - destruct (Py.startswith k (prefix +:+ "encoder")) eqn:He; [| done]. simpl.
    apply encoder_iff in He as [r ->]. rewrite legacy_of_renamed.
    assert (prefix +:+ "decoder" +:+ r <> k0).
    { intros <-. assert (legacy prefix (prefix +:+ "decoder" +:+ r) = true)
        by (apply legacy_iff; eauto). congruence. }
    destruct (decide (prefix +:+ "decoder" +:+ r ∈ ks)).
    + rewrite !bool_decide_eq_true_2; [done | done | by right].
    + rewrite !bool_decide_eq_false_2; [done | done |].
      by intros [? | ?]%elem_of_cons.
Qed.

Lemma rename_spec_step prefix r ks sd v k :
  let k0 := prefix +:+ "decoder" +:+ r in
  k0 ∉ ks ->
  Py.get sd k0 = Some v ->
  rename_spec prefix ks (Py.remove (Py.set sd (prefix +:+ "encoder" +:+ r) v) k0) k
  = rename_spec prefix (k0 :: ks) sd k.
Proof.
  intros k0 Hfresh Hv.
  assert (Hk0 : legacy prefix k0 = true) by (apply legacy_iff; eauto).
  assert (Hne : prefix +:+ "encoder" +:+ r <> k0).
  { intros Heq. pose proof (encoder_not_legacy prefix r) as Hcontra. rewrite Heq in Hcontra. congruence. }
  unfold rename_spec.
  destruct (legacy prefix k) eqn:Hk.
  - destruct (decide (k = k0)) as [-> | Hkk0].
    + rewrite bool_decide_eq_false_2 by done.
      rewrite bool_decide_eq_true_2 by left.
      apply get_remove_eq.
    + assert (k <> prefix +:+ "encoder" +:+ r).
      { intros ->. rewrite encoder_not_legacy in Hk. discriminate. }
      destruct (decide (k ∈ ks)).
      * rewrite !bool_decide_eq_true_2; [done | by right | done].
      * rewrite !bool_decide_eq_false_2; [| by intros [? | ?]%elem_of_cons | done].
        rewrite get_remove_ne, get_set_ne by done. done.
  - assert (Hkk0 : k <> k0) by congruence.
    destruct (Py.startswith k (prefix +:+ "encoder")) eqn:He; simpl.
    + apply encoder_iff in He as [r' ->]. rewrite legacy_of_renamed.
      assert (Hr' : legacy prefix (prefix +:+ "decoder" +:+ r') = true)
        by (apply legacy_iff; eauto).
      assert (Hne' : prefix +:+ "encoder" +:+ r <> prefix +:+ "decoder" +:+ r').
      { intros Heq. rewrite <- Heq, encoder_not_legacy in Hr'. discriminate. }
      destruct (decide (r' = r)) as [-> | Hrr].
      * fold k0. rewrite bool_decide_eq_false_2 by done.
        rewrite bool_decide_eq_true_2 by left.
        rewrite get_remove_ne by done. rewrite get_set_eq. done.
      * assert (Hd : prefix +:+ "decoder" +:+ r' <> k0).
        { unfold k0. intros Heq. apply append_inj_l in Heq.
          apply (append_inj_l "decoder") in Heq. done. }
        assert (Hd' : prefix +:+ "encoder" +:+ r <> prefix +:+ "encoder" +:+ r').
        { intros Heq. apply append_inj_l in Heq.
          apply (append_inj_l "encoder") in Heq. done. }
        destruct (decide (prefix +:+ "decoder" +:+ r' ∈ ks)).
        -- rewrite !bool_decide_eq_true_2; [| by right | done].
           rewrite get_remove_ne, get_set_ne by done. done.
        -- rewrite !bool_decide_eq_false_2; [| by intros [? | ?]%elem_of_cons | done].
           rewrite get_remove_ne, get_set_ne by done. done.
    + assert (k <> prefix +:+ "encoder" +:+ r).
      { intros ->. rewrite (proj2 (encoder_iff _ _)) in He by eauto. discriminate. }
      rewrite get_remove_ne, get_set_ne by done. done.
Qed.

(** The first loop over the keys [ks], each of them present: it returns,
    and the lookups afterwards are those of [rename_spec]. *)
Lemma rename_loop prefix ks st :
  NoDup ks ->
  (forall k, k ∈ ks -> legacy prefix k = true -> is_Some (Py.get (state_dict st) k)) ->
  exists sd', for_each ks (rename_decoder_key prefix) st = (inr tt, set_state_dict st sd')
    /\ (NoDup (Py.keys (state_dict st)) -> NoDup (Py.keys sd'))
    /\ forall k, Py.get sd' k = rename_spec prefix ks (state_dict st) k.
Proof.
  revert st. induction ks as [| k0 ks IH]; intros st Hnd Hpresent.
  - exists (state_dict st). split; [by destruct st |]. split; [done |].
    intros k. by rewrite rename_spec_nil.
  - apply NoDup_cons in Hnd as [Hfresh Hnd].
    simpl. unfold bind at 1. unfold rename_decoder_key at 1.
    fold (legacy prefix k0).
    destruct (legacy prefix k0) eqn:Hk0.
    + destruct (Hpresent k0) as [v Hv]; [left | done |].
      apply legacy_iff in Hk0 as [r Hr].
      pose (sd1 := Py.remove (Py.set (state_dict st) (prefix +:+ "encoder" +:+ r) v) k0).
      assert (Hstep : ((let* v := sd_getitem k0 in
                sd_setitem (prefix +:+ "encoder"
                            +:+ Py.drop (String.length (prefix +:+ "decoder")) k0) v ;;
                sd_delitem k0) st) = (inr tt, set_state_dict st sd1)).
      { unfold bind, sd_getitem, sd_setitem, sd_delitem, get_state_dict, put_state_dict, bind.
        rewrite Hv. unfold ret. simpl.
        fold (renamed prefix k0). rewrite Hr, renamed_legacy, <- Hr.
        assert (Hc : Py.contains (Py.set (state_dict st) (prefix +:+ "encoder" +:+ r) v) k0 = true).
        { unfold Py.contains. rewrite get_set_ne, Hv; [done |].
          rewrite Hr. intros Heq.
          pose proof (encoder_not_legacy prefix r) as Hcontra. rewrite Heq in Hcontra.
          rewrite (proj2 (legacy_iff _ _)) in Hcontra by eauto. discriminate. }
        rewrite Hc. done. }
      rewrite Hstep.
      destruct (IH (set_state_dict st sd1) Hnd) as (sd' & Hrun & Hnd' & Hget).
      { intros k Hin Hk. simpl. unfold sd1.
        assert (k <> k0) by congruence.
        apply legacy_iff in Hk as [r' ->].
        rewrite get_remove_ne by done.
        rewrite get_set_ne.
        - apply Hpresent; [by right | apply legacy_iff; eauto].
        - intros Heq. pose proof (encoder_not_legacy prefix r) as Hcontra. rewrite Heq in Hcontra.
          rewrite (proj2 (legacy_iff _ _)) in Hcontra by eauto. discriminate. }
      exists sd'. split; [exact Hrun |]. split.
      * intros Hnd0. apply Hnd'. simpl. unfold sd1.
        by apply NoDup_keys_remove, NoDup_keys_set.
      * intros k. rewrite Hget. simpl. unfold sd1. rewrite Hr.
        apply rename_spec_step; [by rewrite <- Hr | by rewrite <- Hr].
    + unfold ret.
      destruct (IH st Hnd) as (sd' & Hrun & Hnd' & Hget).
      { intros k Hin Hk. apply Hpresent; [by right | done]. }
      exists sd'. split; [exact Hrun |]. split; [done |].
      intros k. by rewrite Hget, rename_spec_skip.
Qed.

(** ** Registration *)

Lemma register_returns name num_classes inner_dim st :
  ctor_ok (args (self st)) = true ->
  register_classification_head name num_classes inner_dim st
  = (inr tt, registered st name num_classes inner_dim).
Proof.
  unfold ctor_ok, registered, register_records, built_head.
  unfold register_classification_head, SMLPClassificationHead_init, apply_quant_noise_.
  unfold bind, get_self, put_self, logger, ret, raise, set_self, add_logged.
  destruct st as [[a heads oid] sd lg]. simpl. intros Hok.
  destruct (Py.get heads name) as [prev |]; simpl.
  - destruct (negb (num_classes =? out_features (out_proj prev))%N
              || differs inner_dim (out_features (dense prev))); simpl;
      destruct (spectral_norm_classification_head a); simpl in *;
      try (destruct (Qeq_bool (quant_noise_pq a) 0); [| discriminate]); simpl;
      by rewrite <- ?app_assoc.
  - destruct (spectral_norm_classification_head a); simpl in *;
      try (destruct (Qeq_bool (quant_noise_pq a) 0); [| discriminate]); simpl;
      by rewrite <- ?app_assoc.
Qed.

Lemma register_raises name num_classes inner_dim st :
  ctor_ok (args (self st)) = false ->
  exists st', register_classification_head name num_classes inner_dim st
              = (inl NotImplementedError, st')
              /\ state_dict st' = state_dict st
              /\ classification_heads (self st') = classification_heads (self st).
Proof.
  unfold ctor_ok.
  unfold register_classification_head, SMLPClassificationHead_init, apply_quant_noise_.
  unfold bind, get_self, put_self, logger, ret, raise, set_self, add_logged.
  destruct st as [[a heads oid] sd lg]. simpl. intros Hok.
  destruct (spectral_norm_classification_head a); [| discriminate].
  destruct (Qeq_bool (quant_noise_pq a) 0); [discriminate |]. simpl.
  destruct (Py.get heads name) as [prev |]; simpl.
  - destruct (negb (num_classes =? out_features (out_proj prev))%N
              || differs inner_dim (out_features (dense prev))); simpl; by eexists.
  - by eexists.
Qed.

(** Registration leaves the state dict alone, whatever the outcome. *)
Lemma register_state_dict name num_classes inner_dim st :
  state_dict (register_classification_head name num_classes inner_dim st).2 = state_dict st.
Proof.
  destruct (ctor_ok (args (self st))) eqn:Hok.
  - by rewrite register_returns.
  - destruct (register_raises name num_classes inner_dim st Hok) as (st' & -> & Hsd & _).
    exact Hsd.
Qed.



(** ** One key of the second loop *)

Lemma handle_other prefix acc k st :
  head_key prefix k = false -> handle_head_key prefix acc k st = (inr acc, st).
Proof. unfold handle_head_key, head_key. by intros ->. Qed.

(** The second loop changes the state dict on no key, whatever the outcome. *)
Lemma handle_state_dict prefix acc k st :
  state_dict (handle_head_key prefix acc k st).2 = state_dict st.
Proof.
  unfold handle_head_key.
  destruct (Py.startswith k (prefix +:+ "classification_heads.")); [| done]. simpl.
  unfold bind, sd_getitem, get_state_dict, size0, get_self, logger, ret, raise, add_logged, bind.
  destruct (Py.get (state_dict st) _) as [w1 |]; [| done].
  destruct (shape w1) as [| nc ?]; [done |].
  destruct (Py.get (state_dict st) _) as [w2 |]; [| done].
  destruct (shape w2) as [| id ?]; [done |].
  destruct (load_checkpoint_heads (args (self st))) as [[|] |];
    destruct (Py.get (classification_heads (self st)) _) as [h |]; simpl; try done.
  - pose proof (register_state_dict
      (Py.split_dot_first (Py.drop (String.length (prefix +:+ "classification_heads.")) k))
      nc (Some id) st) as Hreg.
    destruct (register_classification_head _ nc (Some id) st) as [[e | []] st']; exact Hreg.
  - by destruct (_ || _).
  - by destruct (_ || _).
Qed.


(** The outcome on a head key whose two weights are there. *)
Lemma handle_present prefix acc k st num_classes inner_dim :
  head_key prefix k = true ->
  persisted_dims prefix (state_dict st) (head_name_of prefix k) = Some (num_classes, inner_dim) ->
  handle_head_key prefix acc k st =
    let hn := head_name_of prefix k in
    match load_checkpoint_heads (args (self st)) with
    | Some true =>
        match Py.get (classification_heads (self st)) hn with
        | None => (register_classification_head hn num_classes (Some inner_dim) ;; ret acc) st
        | Some _ => (inr acc, st)
        end
    | _ =>
        match Py.get (classification_heads (self st)) hn with
        | None => (inr (acc ++ [k]), add_logged st [Warning_deleting_not_present hn k])
        | Some h =>
            if negb (N.eqb num_classes (out_features (out_proj h)))
               || negb (N.eqb inner_dim (out_features (dense h)))
            then (inr (acc ++ [k]),
                  add_logged st [Warning_deleting_different_dimensions hn k])
            else (inr acc, st)
        end
    end.
Proof.
  unfold handle_head_key, head_key, persisted_dims, head_name_of.
  intros -> Hdims. simpl.
  unfold bind at 1. unfold sd_getitem at 1. unfold bind at 1, get_state_dict at 1.
  destruct (Py.get (state_dict st) (_ +:+ _ +:+ _ +:+ ".out_proj.weight")) as [w1 |];
    [| discriminate].
  unfold ret at 1. unfold bind at 1, size0 at 1.
  destruct (Py.get (state_dict st) (_ +:+ _ +:+ _ +:+ ".dense.weight")) as [w2 |] eqn:H2;
    [| discriminate].
  destruct (shape w1) as [| nc ?]; [discriminate |].
  destruct (shape w2) as [| id ?] eqn:Hs2; [discriminate |].
  injection Hdims as -> ->.
  unfold ret at 1. unfold bind at 1, sd_getitem at 1, bind at 1, get_state_dict at 1.
  rewrite H2. unfold ret at 1. unfold bind at 1, size0 at 1. rewrite Hs2.
  unfold ret at 1. unfold bind at 1, get_self at 1.
  destruct (load_checkpoint_heads (args (self st))) as [[|] |];
    destruct (Py.get (classification_heads (self st)) _) as [h |]; try done;
    by destruct (_ || _).
Qed.

(** What one key can add to [keys_to_delete]. *)
Lemma handle_acc prefix acc k st acc' st' :
  handle_head_key prefix acc k st = (inr acc', st') ->
  acc' = acc \/ (acc' = acc ++ [k] /\ head_key prefix k = true).
Proof.
  destruct (head_key prefix k) eqn:Hk.
  - unfold handle_head_key. unfold head_key in Hk. rewrite Hk. simpl.
    unfold bind, sd_getitem, get_state_dict, size0, get_self, logger, ret, raise, add_logged, bind.
    destruct (Py.get (state_dict st) _) as [w1 |]; [| discriminate].
    destruct (shape w1) as [| nc ?]; [discriminate |].
    destruct (Py.get (state_dict st) _) as [w2 |]; [| discriminate].
    destruct (shape w2) as [| id ?]; [discriminate |].
    destruct (load_checkpoint_heads (args (self st))) as [[|] |];
      destruct (Py.get (classification_heads (self st)) _) as [h |]; simpl;
      try destruct (_ || _); try (intros [= <- <-]; by auto).
    destruct (register_classification_head _ nc (Some id) st) as [[e | []] st1];
      [discriminate |]. intros [= <- <-]. by left.
  - rewrite handle_other by done. intros [= <- <-]. by left.
Qed.

(** ** The second loop *)

Lemma reconcile_state_dict prefix ks acc st :
  state_dict (for_acc ks acc (handle_head_key prefix) st).2 = state_dict st.
Proof.
  revert acc st. induction ks as [| k ks IH]; intros acc st; [done |].
  simpl. unfold bind.
  pose proof (handle_state_dict prefix acc k st) as Hk.
  destruct (handle_head_key prefix acc k st) as [[e | acc'] st1]; [exact Hk |].
  rewrite IH. exact Hk.
Qed.

Lemma reconcile_acc prefix ks acc st dels st' :
  for_acc ks acc (handle_head_key prefix) st = (inr dels, st') ->
  forall k, k ∈ dels -> k ∈ acc \/ (k ∈ ks /\ head_key prefix k = true).
Proof.
  revert acc st. induction ks as [| k0 ks IH]; intros acc st.
  - intros [= <- <-]. by left.
  - simpl. unfold bind.
    destruct (handle_head_key prefix acc k0 st) as [[e | acc'] st1] eqn:Hk0; [discriminate |].
    intros Hrest k Hin.
    destruct (IH _ _ Hrest k Hin) as [Hacc | [Hks Hhead]].
    + destruct (handle_acc _ _ _ _ _ _ Hk0) as [-> | [-> Hhead]]; [by left |].
      apply elem_of_app in Hacc as [? | ->%list_elem_of_singleton]; [by left |].
      right. split; [left | done].
    + right. split; [by right | done].
Qed.

(** With [load_checkpoint_heads] off and the heads of the blob complete,
    the loop returns, leaves the model alone, and marks exactly the keys
    of unknown heads and of heads with other dimensions. *)
Lemma reconcile_disabled prefix ks acc st :
  load_checkpoint_heads (args (self st)) <> Some true ->
  (forall k, k ∈ ks -> head_key prefix k = true ->
             is_Some (persisted_dims prefix (state_dict st) (head_name_of prefix k))) ->
  exists lg,
    for_acc ks acc (handle_head_key prefix) st
    = (inr (acc ++ filter (fun k => dropped prefix (self st) (state_dict st) k = true) ks),
       add_logged st lg)
    /\ forall k, k ∈ ks -> dropped prefix (self st) (state_dict st) k = true ->
         let hn := head_name_of prefix k in
         match Py.get (classification_heads (self st)) hn with
         | None => Warning_deleting_not_present hn k ∈ lg
         | Some _ => Warning_deleting_different_dimensions hn k ∈ lg
         end.
Proof.
  intros Hflag. revert acc st Hflag.
  induction ks as [| k0 ks IH]; intros acc st Hflag Hcomplete.
  - exists []. split; [| by intros k ?%elem_of_nil].
    simpl. unfold ret, add_logged. rewrite !app_nil_r. by destruct st.
  - simpl. unfold bind.
    assert (Hrest : forall k, k ∈ ks -> head_key prefix k = true ->
              is_Some (persisted_dims prefix (state_dict st) (head_name_of prefix k))).
    { intros k Hin. apply Hcomplete. by right. }
    destruct (head_key prefix k0) eqn:Hk0.
    + destruct (Hcomplete k0) as [[nc id] Hdims]; [left | done |].
      rewrite (handle_present _ _ _ _ _ _ Hk0 Hdims). simpl.
      assert (Hdrop : dropped prefix (self st) (state_dict st) k0 =
                match Py.get (classification_heads (self st)) (head_name_of prefix k0) with
                | None => true
                | Some h => negb (N.eqb nc (out_features (out_proj h)))
                            || negb (N.eqb id (out_features (dense h)))
                end).
      { unfold dropped. rewrite Hk0, Hdims. simpl.
        by destruct (Py.get (classification_heads (self st)) _). }
      set (step := match load_checkpoint_heads (args (self st)) with
                   | Some true => _ | _ => _ end).
      assert (Hstep : step =
        match Py.get (classification_heads (self st)) (head_name_of prefix k0) with
        | None => (inr (acc ++ [k0]),
                   add_logged st [Warning_deleting_not_present (head_name_of prefix k0) k0])
        | Some h =>
            if negb (N.eqb nc (out_features (out_proj h)))
               || negb (N.eqb id (out_features (dense h)))
            then (inr (acc ++ [k0]),
                  add_logged st
                    [Warning_deleting_different_dimensions (head_name_of prefix k0) k0])
            else (inr acc, st)
        end).
      { unfold step. by destruct (load_checkpoint_heads (args (self st))) as [[|] |]. }
      rewrite Hstep. clear step Hstep.
      destruct (Py.get (classification_heads (self st)) (head_name_of prefix k0))
        as [h |] eqn:Hh.
      * destruct (negb (N.eqb nc (out_features (out_proj h)))
                  || negb (N.eqb id (out_features (dense h)))) eqn:Hmis.
        -- destruct (IH (acc ++ [k0])
                        (add_logged st
                           [Warning_deleting_different_dimensions (head_name_of prefix k0) k0])
                        Hflag Hrest) as (lg & Hrun & Hlog).
           exists (Warning_deleting_different_dimensions (head_name_of prefix k0) k0 :: lg).
           split.
           ++ rewrite Hrun. simpl. rewrite filter_cons_True by done.
              unfold add_logged. simpl. by rewrite <- !app_assoc.
           ++ intros k [-> | Hin]%elem_of_cons Hd; simpl.
              ** rewrite Hh. left.
              ** specialize (Hlog k Hin Hd). simpl in Hlog.
                 destruct (Py.get (classification_heads (self st)) (head_name_of prefix k));
                   by right.
        -- destruct (IH acc st Hflag Hrest) as (lg & Hrun & Hlog).
           exists lg. split.
           ++ rewrite Hrun. rewrite filter_cons_False; [done |]. rewrite Hdrop. done.
           ++ intros k [-> | Hin]%elem_of_cons Hd; [congruence |]. by apply Hlog.
      * destruct (IH (acc ++ [k0])
                      (add_logged st [Warning_deleting_not_present (head_name_of prefix k0) k0])
                      Hflag Hrest) as (lg & Hrun & Hlog).
        exists (Warning_deleting_not_present (head_name_of prefix k0) k0 :: lg).
        split.
        -- rewrite Hrun. simpl. rewrite filter_cons_True by done.
           unfold add_logged. simpl. by rewrite <- !app_assoc.
        -- intros k [-> | Hin]%elem_of_cons Hd; simpl.
           ++ rewrite Hh. left.
           ++ specialize (Hlog k Hin Hd). simpl in Hlog.
              destruct (Py.get (classification_heads (self st)) (head_name_of prefix k));
                by right.
    + rewrite handle_other by done.
      destruct (IH acc st Hflag Hrest) as (lg & Hrun & Hlog).
      exists lg. split.
      * rewrite Hrun. rewrite filter_cons_False; [done |].
        unfold dropped. rewrite Hk0. done.
      * intros k [-> | Hin]%elem_of_cons Hd; [| by apply Hlog].
        unfold dropped in Hd. rewrite Hk0 in Hd. discriminate.
Qed.



(** ** The deletion loop *)

Lemma delete_loop_frame dels st k :
  k ∉ dels ->
  Py.get (state_dict (for_each dels sd_delitem st).2) k = Py.get (state_dict st) k.
Proof.
  revert st. induction dels as [| k0 dels IH]; intros st Hk; [done |].
  apply not_elem_of_cons in Hk as [Hne Hk].
  simpl. unfold bind at 1. unfold sd_delitem at 1.
  unfold bind, get_state_dict, put_state_dict, raise.
  destruct (Py.contains (state_dict st) k0); [| done].
  rewrite IH by done. simpl. by apply get_remove_ne.
Qed.

Lemma sd_delitem_eval k st :
  sd_delitem k st =
    if Py.contains (state_dict st) k
    then (inr tt, set_state_dict st (Py.remove (state_dict st) k))
    else (inl (KeyError k), st).
Proof.
  unfold sd_delitem, bind, get_state_dict, put_state_dict, raise.
  by destruct (Py.contains (state_dict st) k).
Qed.

Lemma delete_loop_self dels st :
  self (for_each dels sd_delitem st).2 = self st
  /\ logged (for_each dels sd_delitem st).2 = logged st.
Proof.
  revert st. induction dels as [| k0 dels IH]; intros st; [done |].
  simpl. unfold bind. rewrite sd_delitem_eval.
  destruct (Py.contains (state_dict st) k0); [| done].
  apply (IH (set_state_dict st _)).
Qed.

Lemma delete_loop_returns dels st :
  NoDup dels ->
  (forall k, k ∈ dels -> k ∈ Py.keys (state_dict st)) ->
  exists sd', for_each dels sd_delitem st = (inr tt, set_state_dict st sd')
    /\ forall k, Py.get sd' k = if bool_decide (k ∈ dels) then None else Py.get (state_dict st) k.
Proof.
  revert st. induction dels as [| k0 dels IH]; intros st Hnd Hin.
  - exists (state_dict st). split; [by destruct st |].
    intros k. by rewrite bool_decide_eq_false_2 by apply not_elem_of_nil.
  - apply NoDup_cons in Hnd as [Hfresh Hnd].
    simpl. unfold bind at 1. unfold sd_delitem at 1.
    unfold bind, get_state_dict, put_state_dict, raise.
    rewrite (proj2 (contains_keys _ _)) by (apply Hin; left).
    destruct (IH (set_state_dict st (Py.remove (state_dict st) k0)) Hnd)
      as (sd' & Hrun & Hget).
    { intros k Hk. simpl. apply get_keys. rewrite get_remove_ne by congruence.
      apply get_keys, Hin. by right. }
    exists sd'. split; [exact Hrun |].
    intros k. rewrite Hget. simpl.
    destruct (decide (k = k0)) as [-> | Hne].
    + rewrite (bool_decide_eq_true_2 (k0 ∈ k0 :: dels)) by left.
      rewrite get_remove_eq. by destruct (bool_decide _).
    + rewrite get_remove_ne by done.
      destruct (decide (k ∈ dels)).
      * rewrite !bool_decide_eq_true_2; [done | by right | done].
      * rewrite !bool_decide_eq_false_2; [done | | done].
        by intros [? | ?]%elem_of_cons.
Qed.

(** ** The copy loop *)

Lemma copy_head_entry_eval prefix k v st :
  copy_head_entry prefix (k, v) st =
    let key := prefix +:+ "classification_heads." +:+ k in
    if Py.contains (state_dict st) key then (inr tt, st)
    else (inr tt, set_state_dict (add_logged st [Info_overwriting key])
                                 (Py.set (state_dict st) key v)).
Proof.
  unfold copy_head_entry, bind, get_state_dict, logger, sd_setitem, bind,
    get_state_dict, put_state_dict, ret.
  simpl. by destruct (Py.contains (state_dict st) _).
Qed.

Lemma copy_loop prefix cs st :
  exists sd' lg,
    for_each cs (copy_head_entry prefix) st
    = (inr tt, {| self := self st; state_dict := sd'; logged := logged st ++ lg |})
    /\ Forall (fun r => is_warning r = false) lg
    /\ forall k, Py.get sd' k =
         match Py.get (state_dict st) k with
         | Some v => Some v
         | None => Py.get (map (fun '(k', v) => (prefix +:+ "classification_heads." +:+ k', v)) cs) k
         end.
Proof.
  revert st. induction cs as [| [k0 v0] cs IH]; intros st.
  - exists (state_dict st), []. split; [| split; [constructor |]].
    + simpl. unfold ret. rewrite app_nil_r. by destruct st.
    + intros k. simpl. by destruct (Py.get (state_dict st) k).
  - cbn [for_each]. unfold bind. rewrite copy_head_entry_eval. cbv zeta.
    set (key := prefix +:+ "classification_heads." +:+ k0).
    destruct (Py.contains (state_dict st) key) eqn:Hc.
    + destruct (IH st) as (sd' & lg & Hrun & Hlg & Hget).
      exists sd', lg. split; [exact Hrun |]. split; [done |].
      intros k. rewrite Hget. cbn [map Py.get]. fold key.
      destruct (Py.get (state_dict st) k) as [v |] eqn:Hk; [done |].
      destruct (String.eqb_spec key k) as [<- | _]; [| done].
      unfold Py.contains in Hc. rewrite Hk in Hc. discriminate.
    + destruct (IH (set_state_dict (add_logged st [Info_overwriting key])
                      (Py.set (state_dict st) key v0))) as (sd' & lg & Hrun & Hlg & Hget).
      exists sd', (Info_overwriting key :: lg).
      split; [| split].
      * rewrite Hrun. unfold set_state_dict, add_logged. cbn [self state_dict logged].
        by rewrite <- app_assoc.
      * by constructor.
      * intros k. rewrite Hget. cbn [set_state_dict state_dict map Py.get]. fold key.
        rewrite get_set.
        destruct (String.eqb_spec key k) as [<- | _]; [| done].
        unfold Py.contains in Hc. by destruct (Py.get (state_dict st) key).
Qed.

Lemma get_heads_prefix prefix (cs : StateDict) k :
  Py.get (map (fun '(k', v) => (prefix +:+ "classification_heads." +:+ k', v)) cs) k
  = if head_key prefix k
    then Py.get cs (Py.drop (String.length (prefix +:+ "classification_heads.")) k)
    else None.
Proof.
  assert (Hmap : map (fun '(k', v) => (prefix +:+ "classification_heads." +:+ k', v)) cs
                 = map (fun '(k', v) => ((prefix +:+ "classification_heads.") +:+ k', v)) cs).
  { apply map_ext. intros [k' v]. by rewrite append_assoc. }
  rewrite Hmap. unfold head_key.
  destruct (Py.startswith k (prefix +:+ "classification_heads.")) eqn:Hk.
  - rewrite (startswith_drop _ _ Hk) at 1. apply get_map_prefix.
  - by apply get_map_prefix_None.
Qed.

Lemma rename_spec_keys prefix (sd : StateDict) k :
  rename_spec prefix (Py.keys sd) sd k =
    if legacy prefix k then None
    else if Py.startswith k (prefix +:+ "encoder") then
      match Py.get sd (legacy_of prefix k) with
      | Some v => Some v
      | None => Py.get sd k
      end
    else Py.get sd k.
Proof.
  unfold rename_spec. destruct (legacy prefix k).
  - destruct (decide (k ∈ Py.keys sd)) as [Hin | Hnin].
    + by rewrite bool_decide_eq_true_2.
    + rewrite bool_decide_eq_false_2 by done. by apply get_None_keys.
  - destruct (Py.startswith k (prefix +:+ "encoder")); [| done]. simpl.
    destruct (decide (legacy_of prefix k ∈ Py.keys sd)) as [Hin | Hnin].
    + rewrite bool_decide_eq_true_2 by done.
      apply get_keys in Hin as [v Hv]. by rewrite Hv.
    + rewrite bool_decide_eq_false_2 by done.
      apply get_None_keys in Hnin. by rewrite Hnin.
Qed.

(** ** The upgrade as a whole *)

Section Upgrade.

Variable super_upgrade_state_dict_named : StateDict -> string -> StateDict.

Local Abbreviation upgrade := (upgrade_state_dict_named super_upgrade_state_dict_named).

(** On a dict (no key twice) the first loop returns, and the rest of the
    upgrade runs on the renamed dict [sd1]. *)
Lemma upgrade_unfold name st :
  NoDup (Py.keys (state_dict st)) ->
  exists sd1,
    (forall k, Py.get sd1 k
               = rename_spec (prefix_of name) (Py.keys (state_dict st)) (state_dict st) k)
    /\ NoDup (Py.keys sd1)
    /\ upgrade name st
       = reconcile_and_copy (prefix_of name)
           (set_state_dict st (super_upgrade_state_dict_named sd1 name)).
Proof.
  intros Hnd.
  destruct (rename_loop (prefix_of name) (Py.keys (state_dict st)) st Hnd)
    as (sd1 & Hrun & Hnd1 & Hget).
  { intros k Hin _. by apply get_keys. }
  exists sd1. split; [exact Hget |]. split; [by apply Hnd1 |].
  unfold upgrade_state_dict_named, reconcile_and_copy.
  unfold bind at 1. unfold get_state_dict at 1.
  unfold bind at 1. rewrite Hrun.
  unfold bind, get_state_dict, put_state_dict, get_self. simpl.
  destruct (for_acc _ _ _ _) as [[e | dels] st3]; [done |].
  by destruct (for_each dels sd_delitem st3) as [[e | []] st4].
Qed.

(** The steps after the children's upgrade touch no key outside the
    classification-heads namespace, whatever the outcome. *)
Lemma reconcile_and_copy_frame prefix st2 k :
  head_key prefix k = false ->
  Py.get (state_dict (reconcile_and_copy prefix st2).2) k = Py.get (state_dict st2) k.
Proof.
  intros Hk. unfold reconcile_and_copy.
  pose proof (reconcile_state_dict prefix (Py.keys (state_dict st2)) [] st2) as Hsd.
  destruct (for_acc _ _ _ _) as [[e | dels] st3] eqn:Hloop; simpl in Hsd.
  { simpl. by rewrite Hsd. }
  assert (Hnin : k ∉ dels).
  { intros Hin. destruct (reconcile_acc _ _ _ _ _ _ Hloop k Hin) as [Hnil | [_ Hhead]].
    - by apply elem_of_nil in Hnil.
    - congruence. }
  pose proof (delete_loop_frame dels st3 k Hnin) as Hdel.
  destruct (for_each dels sd_delitem st3) as [[e | []] st4]; simpl in Hdel.
  { simpl. by rewrite Hdel, Hsd. }
  destruct (copy_loop prefix (heads_state_dict (classification_heads (self st4))) st4)
    as (sd' & lg & -> & _ & Hget).
  simpl. rewrite Hget, Hdel, Hsd.
  destruct (Py.get (state_dict st2) k); [done |].
  rewrite get_heads_prefix. by rewrite Hk.
Qed.

Lemma head_key_not_legacy prefix k : head_key prefix k = true -> legacy prefix k = false.
Proof.
  unfold head_key, legacy. intros Hk.
  by apply (startswith_disjoint k prefix "classification_heads." "decoder").
Qed.

Lemma head_key_not_encoder prefix k :
  head_key prefix k = true -> Py.startswith k (prefix +:+ "encoder") = false.
Proof.
  unfold head_key. intros Hk.
  by apply (startswith_disjoint k prefix "classification_heads." "encoder").
Qed.

Lemma legacy_not_head_key prefix k : legacy prefix k = true -> head_key prefix k = false.
Proof.
  intros Hk. destruct (head_key prefix k) eqn:Hh; [| done].
  apply head_key_not_legacy in Hh. congruence.
Qed.

Lemma encoder_not_head_key prefix r : head_key prefix (prefix +:+ "encoder" +:+ r) = false.
Proof.
  destruct (head_key prefix _) eqn:Hh; [| done].
  apply head_key_not_encoder in Hh.
  rewrite (proj2 (encoder_iff _ _)) in Hh by eauto. discriminate.
Qed.

(** The lookups of the upgraded dict at a legacy key and at its new name,
    whatever the outcome of the later steps. *)
Lemma upgrade_legacy name st rest v :
  let prefix := prefix_of name in
  let k := prefix +:+ "decoder" +:+ rest in
  let new_k := prefix +:+ "encoder" +:+ rest in
  NoDup (Py.keys (state_dict st)) ->
  Py.get (state_dict st) k = Some v ->
  (forall sd, Py.get (super_upgrade_state_dict_named sd name) new_k = Py.get sd new_k) ->
  (forall sd, Py.get (super_upgrade_state_dict_named sd name) k = Py.get sd k) ->
  Py.get (state_dict (upgrade name st).2) new_k = Some v
  /\ Py.get (state_dict (upgrade name st).2) k = None.
Proof.
  intros prefix k new_k Hnd Hv Hnew Hold.
  destruct (upgrade_unfold name st Hnd) as (sd1 & Hget & _ & ->).
  fold prefix in Hget |- *.
  assert (Hk : legacy prefix k = true) by (apply legacy_iff; eauto).
  split.
  - rewrite reconcile_and_copy_frame by apply encoder_not_head_key.
    simpl. rewrite Hnew, Hget, rename_spec_keys.
    unfold new_k. rewrite encoder_not_legacy.
    rewrite (proj2 (encoder_iff _ _)) by eauto.
    rewrite legacy_of_renamed. fold k. by rewrite Hv.
  - rewrite reconcile_and_copy_frame by by apply legacy_not_head_key.
    simpl. rewrite Hold, Hget, rename_spec_keys. by rewrite Hk.
Qed.

(** C5. A key under the legacy namespace [decoder.] comes out under
  [encoder.] with the rest of its path and its tensor, and the legacy
  key is gone; a value already stored under the new name is overwritten.
  This holds of the state dict the upgrade leaves, whether its later
  steps return or raise. The state dict is a dict (no key twice), and
  the children's upgrade leaves the two keys alone. *)
Theorem decoder_key_renamed (name : string) (st : St) (rest : string) (v : Tensor) :
let prefix := prefix_of name in
let k := prefix +:+ "decoder." +:+ rest in
let new_k := prefix +:+ "encoder." +:+ rest in
NoDup (Py.keys (state_dict st)) ->
Py.get (state_dict st) k = Some v ->
(forall sd, Py.get (super_upgrade_state_dict_named sd name) new_k = Py.get sd new_k) ->
(forall sd, Py.get (super_upgrade_state_dict_named sd name) k = Py.get sd k) ->
Py.get (state_dict (upgrade name st).2) new_k = Some v
/\ Py.get (state_dict (upgrade name st).2) k = None.
Proof.
intros prefix k new_k. exact (upgrade_legacy name st ("." +:+ rest) v).
Qed.

(** C9. The rename goes by the characters of the key, not by path
  segments: every key that begins with [decoder], whatever follows,
  comes out with [encoder] in its place and the rest unchanged, and
  the original key is gone. *)
Theorem decoder_prefix_is_textual (name : string) (st : St) (rest : string) (v : Tensor) :
let prefix := prefix_of name in
let k := prefix +:+ "decoder" +:+ rest in
let new_k := prefix +:+ "encoder" +:+ rest in
NoDup (Py.keys (state_dict st)) ->
Py.get (state_dict st) k = Some v ->
(forall sd, Py.get (super_upgrade_state_dict_named sd name) new_k = Py.get sd new_k) ->
(forall sd, Py.get (super_upgrade_state_dict_named sd name) k = Py.get sd k) ->
Py.startswith k (prefix +:+ "decoder") = true
/\ Py.get (state_dict (upgrade name st).2) new_k = Some v
/\ Py.get (state_dict (upgrade name st).2) k = None.
Proof.
intros prefix k new_k Hnd Hv Hnew Hold. split.
- apply legacy_iff. by exists rest.
- by apply upgrade_legacy.
Qed.

(** C8, amended. A key that does not begin with [decoder], is not under
  the classification-heads namespace, and is not the new name of a
  legacy key of the blob, is looked up after the upgrade as before it:
  present with the same tensor, or absent. The children's upgrade is
  taken to leave the key alone. *)
Theorem other_key_passes_through (name : string) (st : St) (k : string) :
let prefix := prefix_of name in
NoDup (Py.keys (state_dict st)) ->
legacy prefix k = false ->
head_key prefix k = false ->
(Py.startswith k (prefix +:+ "encoder") = true ->
 Py.get (state_dict st) (legacy_of prefix k) = None) ->
(forall sd, Py.get (super_upgrade_state_dict_named sd name) k = Py.get sd k) ->
Py.get (state_dict (upgrade name st).2) k = Py.get (state_dict st) k.
Proof.
intros prefix Hnd Hleg Hhead Hfresh Hsuper.
destruct (upgrade_unfold name st Hnd) as (sd1 & Hget & _ & ->).
fold prefix in Hget |- *.
rewrite reconcile_and_copy_frame by done. simpl.
rewrite Hsuper, Hget, rename_spec_keys, Hleg.
destruct (Py.startswith k (prefix +:+ "encoder")); [| done].
by rewrite Hfresh.
Qed.

End Upgrade.

Lemma decoder_key_renamed_witness :
  let st := example_state None collision_blob in
  Py.get (state_dict (upgrade_state_dict_named no_children_upgrade "" st).2)
         "encoder.lm_head.bias" = Some (tensor [3%N] 1)
  /\ Py.get (state_dict (upgrade_state_dict_named no_children_upgrade "" st).2)
            "decoder.lm_head.bias" = None.
Proof.
  apply (decoder_key_renamed no_children_upgrade "" (example_state None collision_blob)
           "lm_head.bias" (tensor [3%N] 1)).
  - apply (bool_decide_unpack _). vm_compute. reflexivity.
  - reflexivity.
  - reflexivity.
  - reflexivity.
Defined.

Lemma decoder_prefix_is_textual_witness :
  let st := example_state None [ ("decoder_embed.weight", tensor [4%N; 2%N] 7) ] in
  Py.startswith "decoder_embed.weight" "decoder" = true
  /\ Py.get (state_dict (upgrade_state_dict_named no_children_upgrade "" st).2)
            "encoder_embed.weight" = Some (tensor [4%N; 2%N] 7)
  /\ Py.get (state_dict (upgrade_state_dict_named no_children_upgrade "" st).2)
            "decoder_embed.weight" = None.
Proof.
  apply (decoder_prefix_is_textual no_children_upgrade ""
           (example_state None [ ("decoder_embed.weight", tensor [4%N; 2%N] 7) ])
           "_embed.weight" (tensor [4%N; 2%N] 7)).
  - apply (bool_decide_unpack _). vm_compute. reflexivity.
  - reflexivity.
  - reflexivity.
  - reflexivity.
Defined.

(** C8 as stated fails: [encoder.lm_head.bias] is a key of the blob, neither
    under [decoder] nor under the classification heads, and the upgrade
    replaces its tensor by the one of [decoder.lm_head.bias]. *)
Lemma other_key_overwritten :
  let st := example_state None collision_blob in
  legacy "" "encoder.lm_head.bias" = false
  /\ head_key "" "encoder.lm_head.bias" = false
  /\ Py.get (state_dict st) "encoder.lm_head.bias" = Some (tensor [3%N] 2)
  /\ Py.get (state_dict (upgrade_state_dict_named no_children_upgrade "" st).2)
            "encoder.lm_head.bias" = Some (tensor [3%N] 1)
  /\ tensor [3%N] 1 <> tensor [3%N] 2.
Proof. repeat split; try reflexivity. discriminate. Qed.

Lemma other_key_passes_through_witness :
  let st := example_state None
              (("encoder.sentence_encoder.embed_tokens.weight", tensor [9%N; 4%N] 5)
               :: collision_blob) in
  Py.get (state_dict (upgrade_state_dict_named no_children_upgrade "" st).2)
         "encoder.sentence_encoder.embed_tokens.weight"
  = Py.get (state_dict st) "encoder.sentence_encoder.embed_tokens.weight".
Proof.
  apply (other_key_passes_through no_children_upgrade ""
           (example_state None
              (("encoder.sentence_encoder.embed_tokens.weight", tensor [9%N; 4%N] 5)
               :: collision_blob))
           "encoder.sentence_encoder.embed_tokens.weight").
  - apply (bool_decide_unpack _). vm_compute. reflexivity.
  - reflexivity.
  - reflexivity.
  - reflexivity.
  - reflexivity.
Defined.

(** ** Registering a head again *)




(** ** The state dict of the heads *)

Lemma get_map_name (n : string) (l : StateDict) pk :
  Py.get (map (fun '(k, v) => (n +:+ "." +:+ k, v)) l) (n +:+ "." +:+ pk) = Py.get l pk.
Proof.
  assert (Hmap : map (fun '(k, v) => (n +:+ "." +:+ k, v)) l
                 = map (fun '(k, v) => ((n +:+ ".") +:+ k, v)) l).
  { apply map_ext. intros [k v]. by rewrite append_assoc. }
  rewrite Hmap, <- (append_assoc n "." pk). apply get_map_prefix.
Qed.

Lemma get_map_name_Some (n : string) (l : StateDict) key v :
  Py.get (map (fun '(k, v) => (n +:+ "." +:+ k, v)) l) key = Some v ->
  exists pk, key = n +:+ "." +:+ pk.
Proof.
  induction l as [| [k0 v0] l IH]; simpl; [discriminate |].
  destruct (String.eqb_spec (n +:+ "." +:+ k0) key) as [<- | _]; [by eexists | exact IH].
Qed.

Lemma heads_state_dict_None heads rest :
  Forall dot_free (Py.keys heads) ->
  Py.get heads (Py.split_dot_first rest) = None ->
  Py.get (heads_state_dict heads) rest = None.
Proof.
  induction heads as [| [n h] heads IH]; intros Hfree Hnone; [done |].
  apply Forall_cons in Hfree as [Hn Hfree].
  simpl in Hnone. destruct (String.eqb_spec n (Py.split_dot_first rest)) as [-> | Hne];
    [discriminate |].
  simpl. rewrite get_app.
  destruct (Py.get (map _ (head_state_dict h)) rest) as [v |] eqn:Hv; [| by apply IH].
  apply get_map_name_Some in Hv as [pk ->].
  rewrite split_dot_first_app in Hne by done. done.
Qed.

Lemma heads_state_dict_Some heads hn h pk :
  valid_heads heads ->
  Py.get heads hn = Some h ->
  Py.get (heads_state_dict heads) (hn +:+ "." +:+ pk) = Py.get (head_state_dict h) pk.
Proof.
  intros [Hnd Hfree]. induction heads as [| [n h0] heads IH]; [discriminate |].
  apply Forall_cons in Hfree as [Hn Hfree].
  apply NoDup_cons in Hnd as [Hfresh Hnd].
  simpl. rewrite get_app.
  destruct (String.eqb_spec n hn) as [-> | Hne].
  - intros [= ->]. rewrite get_map_name.
    destruct (Py.get (head_state_dict h) pk); [done |].
    apply heads_state_dict_None; [done |].
    rewrite split_dot_first_app by done. by apply get_None_keys.
  - intros Hh.
    destruct (Py.get (map _ (head_state_dict h0)) (hn +:+ "." +:+ pk)) as [v |] eqn:Hv;
      [| by apply IH].
    apply get_map_name_Some in Hv as [pk' Heq].
    assert (Hhn : dot_free hn).
    { apply get_keys_Some in Hh. by apply (proj1 (Forall_forall _ _) Hfree). }
    apply dotted_inj in Heq as [-> _]; done.
Qed.

Lemma drop_heads_prefix prefix rest :
  Py.drop (String.length (prefix +:+ "classification_heads."))
          (prefix +:+ "classification_heads." +:+ rest) = rest.
Proof. by rewrite <- (append_assoc prefix "classification_heads." rest), drop_app. Qed.

Lemma head_key_intro prefix rest :
  head_key prefix (prefix +:+ "classification_heads." +:+ rest) = true.
Proof.
  unfold head_key. rewrite <- (append_assoc prefix "classification_heads." rest).
  apply startswith_app.
Qed.

Lemma head_name_of_intro prefix hn rest :
  dot_free hn ->
  head_name_of prefix (prefix +:+ "classification_heads." +:+ hn +:+ "." +:+ rest) = hn.
Proof.
  intros Hhn. unfold head_name_of. rewrite drop_heads_prefix.
  by apply split_dot_first_app.
Qed.

(** ** Heads of the blob against heads of the model *)

(** After a loop that returned with the keys [dels] to delete: the deletion
    and the copy return as well, and a lookup finds the current state of
    the heads wherever the blob has nothing left. *)
Lemma delete_and_copy prefix dels st3 :
  NoDup dels ->
  (forall k, k ∈ dels -> k ∈ Py.keys (state_dict st3)) ->
  exists sd' lg,
    match for_each dels sd_delitem st3 with
    | (inl e, st4) => (inl e, st4)
    | (inr _, st4) =>
        for_each (heads_state_dict (classification_heads (self st4)))
                 (copy_head_entry prefix) st4
    end = (inr tt, {| self := self st3; state_dict := sd'; logged := logged st3 ++ lg |})
    /\ Forall (fun r => is_warning r = false) lg
    /\ forall k, Py.get sd' k =
         match (if bool_decide (k ∈ dels) then None else Py.get (state_dict st3) k) with
         | Some v => Some v
         | None =>
             if head_key prefix k
             then Py.get (heads_state_dict (classification_heads (self st3)))
                         (Py.drop (String.length (prefix +:+ "classification_heads.")) k)
             else None
         end.
Proof.
  intros Hnd Hin.
  destruct (delete_loop_returns dels st3 Hnd Hin) as (sd4 & -> & Hget4).
  destruct (copy_loop prefix
              (heads_state_dict (classification_heads (self (set_state_dict st3 sd4))))
              (set_state_dict st3 sd4)) as (sd' & lg & -> & Hlg & Hget).
  exists sd', lg. split; [done |]. split; [done |].
  intros k. rewrite Hget. simpl. rewrite Hget4, get_heads_prefix. done.
Qed.

Section Reconcile.

Variable super_upgrade_state_dict_named : StateDict -> string -> StateDict.

Local Abbreviation upgrade := (upgrade_state_dict_named super_upgrade_state_dict_named).

(** With idle children, the loops over the heads see the keys of the
    blob under the classification heads as they were persisted. *)
Lemma upgrade_unfold_idle name st :
  children_idle super_upgrade_state_dict_named name ->
  NoDup (Py.keys (state_dict st)) ->
  exists sd1,
    NoDup (Py.keys sd1)
    /\ (forall k, head_key (prefix_of name) k = true -> Py.get sd1 k = Py.get (state_dict st) k)
    /\ (forall k w, Py.get sd1 k = Some w -> exists k', Py.get (state_dict st) k' = Some w)
    /\ upgrade name st = reconcile_and_copy (prefix_of name) (set_state_dict st sd1).
Proof.
  intros Hidle Hnd.
  destruct (upgrade_unfold super_upgrade_state_dict_named name st Hnd)
    as (sd1 & Hget & Hnd1 & Hrun).
  exists sd1. split; [done |]. split; [| split].
  - intros k Hk. rewrite Hget, rename_spec_keys.
    by rewrite (head_key_not_legacy _ _ Hk), (head_key_not_encoder _ _ Hk).
  - intros k w. rewrite Hget, rename_spec_keys.
    destruct (legacy (prefix_of name) k); [discriminate |].
    destruct (Py.startswith k (prefix_of name +:+ "encoder")); [| by eauto].
    destruct (Py.get (state_dict st) (legacy_of (prefix_of name) k)) eqn:Hl; [| by eauto].
    intros [= <-]. by eauto.
  - by rewrite Hrun, Hidle.
Qed.

Lemma persisted_dims_ext prefix (sd1 sd : StateDict) hn :
  (forall k, head_key prefix k = true -> Py.get sd1 k = Py.get sd k) ->
  persisted_dims prefix sd1 hn = persisted_dims prefix sd hn.
Proof.
  intros Hget. unfold persisted_dims. by rewrite !Hget by apply head_key_intro.
Qed.


Lemma heads_complete_ext prefix (sd1 sd : StateDict) :
  (forall k, head_key prefix k = true -> Py.get sd1 k = Py.get sd k) ->
  heads_complete prefix sd ->
  forall k, k ∈ Py.keys sd1 -> head_key prefix k = true ->
            is_Some (persisted_dims prefix sd1 (head_name_of prefix k)).
Proof.
  intros Hget Hcomplete k Hin Hk.
  rewrite (persisted_dims_ext _ _ _ _ Hget). apply Hcomplete; [| done].
  apply get_keys. rewrite <- Hget by done. by apply get_keys.
Qed.

(** The upgrade with [load_checkpoint_heads] off, on a blob whose heads
    are complete. *)
Lemma upgrade_disabled name st :
  let prefix := prefix_of name in
  children_idle super_upgrade_state_dict_named name ->
  NoDup (Py.keys (state_dict st)) ->
  heads_complete prefix (state_dict st) ->
  load_checkpoint_heads (args (self st)) <> Some true ->
  exists sd' lg,
    upgrade name st = (inr tt, {| self := self st; state_dict := sd'; logged := logged st ++ lg |})
    /\ (forall k, k ∈ Py.keys (state_dict st) ->
          dropped prefix (self st) (state_dict st) k = true ->
          let hn := head_name_of prefix k in
          match Py.get (classification_heads (self st)) hn with
          | None => Warning_deleting_not_present hn k ∈ lg
          | Some _ => Warning_deleting_different_dimensions hn k ∈ lg
          end)
    /\ (forall k, head_key prefix k = true ->
          Py.get sd' k =
            match (if dropped prefix (self st) (state_dict st) k
                   then None else Py.get (state_dict st) k) with
            | Some v => Some v
            | None => Py.get (heads_state_dict (classification_heads (self st)))
                             (Py.drop (String.length (prefix +:+ "classification_heads.")) k)
            end).
Proof.
  intros prefix Hidle Hnd Hcomplete Hflag.
  destruct (upgrade_unfold_idle name st Hidle Hnd) as (sd1 & Hnd1 & Hget1 & _ & ->).
  fold prefix in Hget1 |- *.
  set (st2 := set_state_dict st sd1).
  assert (Hdrop : forall k, dropped prefix (self st2) (state_dict st2) k
                            = dropped prefix (self st) (state_dict st) k).
  { intros k. unfold dropped. simpl.
    by rewrite (persisted_dims_ext _ _ _ _ Hget1). }
  destruct (reconcile_disabled prefix (Py.keys (state_dict st2)) [] st2 Hflag)
    as (lg1 & Hloop & Hlog).
  { by apply (heads_complete_ext _ _ (state_dict st)). }
  unfold reconcile_and_copy. rewrite Hloop. simpl app.
  set (dels := filter _ _).
  destruct (delete_and_copy prefix dels (add_logged st2 lg1)) as (sd' & lg2 & -> & _ & Hget).
  { by apply NoDup_filter. }
  { intros k Hk. by apply list_elem_of_filter in Hk as [_ ?]. }
  exists sd', (lg1 ++ lg2). simpl. split; [by rewrite app_assoc |]. split.
  - intros k Hin Hd.
    assert (Hk : head_key prefix k = true).
    { unfold dropped in Hd. by apply andb_true_iff in Hd as [? _]. }
    assert (Hin2 : k ∈ Py.keys (state_dict st2)).
    { apply get_keys. simpl. rewrite Hget1 by done. by apply get_keys. }
    rewrite <- Hdrop in Hd. specialize (Hlog k Hin2 Hd). simpl in Hlog |- *.
    destruct (Py.get (classification_heads (self st)) (head_name_of prefix k));
      apply elem_of_app; by left.
  - intros k Hk. rewrite Hget, Hk. simpl.
    rewrite Hget1 by done.
    destruct (dropped prefix (self st) (state_dict st) k) eqn:Hd.
    + destruct (decide (k ∈ dels)); [by rewrite bool_decide_eq_true_2 |].
      rewrite bool_decide_eq_false_2 by done.
      destruct (Py.get (state_dict st) k) as [v |] eqn:Hv; [| done].
      exfalso. apply n. apply list_elem_of_filter. split; [by rewrite Hdrop |].
      apply get_keys. simpl. rewrite Hget1 by done. by eexists.
    + rewrite bool_decide_eq_false_2; [done |].
      intros [Hd' _]%list_elem_of_filter. rewrite Hdrop in Hd'. congruence.
Qed.


End Reconcile.


(** C3, amended. With [load_checkpoint_heads] off: a head of the blob that
    the model has under the same name with other dimensions (on a blob
    whose heads all have their two weights, with idle children) is dropped.
    The upgrade returns and leaves the model alone, a warning names every
    key of the head, and what the blob then holds under the head's name is
    the model's current state of that head, parameter by parameter: no
    persisted tensor of the head is left. *)
Theorem mismatched_head_dropped (super : StateDict -> string -> StateDict)
    (name : string) (st : St) (k : string) (h : SMLPClassificationHead)
    (num_classes inner_dim : N) :
  let prefix := prefix_of name in
  let hn := head_name_of prefix k in
  let out := upgrade_state_dict_named super name st in
  children_idle super name ->
  NoDup (Py.keys (state_dict st)) ->
  heads_complete prefix (state_dict st) ->
  valid_heads (classification_heads (self st)) ->
  load_checkpoint_heads (args (self st)) <> Some true ->
  k ∈ Py.keys (state_dict st) ->
  head_key prefix k = true ->
  Py.get (classification_heads (self st)) hn = Some h ->
  persisted_dims prefix (state_dict st) hn = Some (num_classes, inner_dim) ->
  (num_classes <> out_features (out_proj h) \/ inner_dim <> out_features (dense h)) ->
  out.1 = inr tt
  /\ self out.2 = self st
  /\ (forall k', k' ∈ Py.keys (state_dict st) -> head_key prefix k' = true ->
                 head_name_of prefix k' = hn ->
                 Warning_deleting_different_dimensions hn k' ∈ logged out.2
                 /\ Py.get (state_dict out.2) k'
                    = Py.get (heads_state_dict (classification_heads (self st)))
                             (Py.drop (String.length (prefix +:+ "classification_heads.")) k'))
  /\ (forall pk, Py.get (state_dict out.2) (prefix +:+ "classification_heads." +:+ hn +:+ "." +:+ pk)
                 = Py.get (head_state_dict h) pk).
Proof.
  intros prefix hn out Hidle Hnd Hcomplete Hvalid Hflag Hin Hk Hh Hdims Hmis.
  destruct (upgrade_disabled super name st Hidle Hnd Hcomplete Hflag)
    as (sd' & lg & Hrun & Hlog & Hget).
  subst out. rewrite Hrun. simpl.
  assert (Hd : forall k', head_key prefix k' = true -> head_name_of prefix k' = hn ->
                          dropped prefix (self st) (state_dict st) k' = true).
  { intros k' Hk' Hhn. unfold dropped. fold prefix. rewrite Hk', Hhn. fold hn.
    rewrite Hh, Hdims. simpl.
    destruct Hmis as [Hne | Hne]; apply N.eqb_neq in Hne; rewrite Hne; simpl;
      [done | by apply orb_true_r]. }
  split; [done |]. split; [done |]. split.
  - intros k' Hin' Hk' Hhn. split.
    + specialize (Hlog k' Hin' (Hd k' Hk' Hhn)). simpl in Hlog. fold prefix in Hlog.
      rewrite Hhn in Hlog. fold hn in Hlog. rewrite Hh in Hlog.
      apply elem_of_app. by right.
    + rewrite (Hget k' Hk'). fold prefix. by rewrite (Hd k' Hk' Hhn).
  - intros pk.
    assert (Hhn : dot_free hn) by apply split_dot_first_dot_free.
    rewrite Hget by apply head_key_intro. fold prefix.
    rewrite Hd; [| apply head_key_intro | by apply head_name_of_intro].
    rewrite drop_heads_prefix. by apply heads_state_dict_Some.
Qed.


(** ** The theorems on the example blobs *)

Ltac blob_complete :=
  let k := fresh "k" in
  let Hin := fresh "Hin" in
  let Hk := fresh "Hk" in
  intros k Hin Hk; simpl in Hin;
  repeat (apply elem_of_cons in Hin as [-> | Hin];
          [first [ discriminate Hk | by eexists ] |]);
  by apply elem_of_nil in Hin.

Lemma sst2_blob_complete : heads_complete "" (sst2_blob 3).
Proof. blob_complete. Qed.


Lemma example_heads_valid load name num_classes sd :
  dot_free name -> valid_heads (classification_heads (self (example_state_with_head load name num_classes sd))).
Proof.
  intros Hname. split; simpl.
  - apply NoDup_singleton.
  - by repeat constructor.
Qed.


Lemma mismatched_head_dropped_witness :
  let st := example_state_with_head None "sst2" 2 (sst2_blob 3) in
  let out := upgrade_state_dict_named no_children_upgrade "" st in
  out.1 = inr tt
  /\ Warning_deleting_different_dimensions "sst2" "classification_heads.sst2.out_proj.weight"
     ∈ logged out.2
  /\ Py.get (state_dict out.2) "classification_heads.sst2.out_proj.weight"
     = Some (tensor [2%N; 512%N] 0)
  /\ Py.get (state_dict out.2) "classification_heads.sst2.out_proj.bias"
     = Some (tensor [2%N] 0).
Proof.
  intros st out.
  destruct (mismatched_head_dropped no_children_upgrade "" st
              "classification_heads.sst2.out_proj.weight"
              (built_head (self (example_state None [])) 2 None) 3 512)
    as (Hret & _ & Hkeys & Hstate).
  - intros sd. reflexivity.
  - apply (bool_decide_unpack _). vm_compute. reflexivity.
  - exact sst2_blob_complete.
  - by apply example_heads_valid.
  - discriminate.
  - right. right. left.
  - reflexivity.
  - reflexivity.
  - reflexivity.
  - left. discriminate.
  - split; [exact Hret |]. split; [| split].
    + apply Hkeys; [right; right; left | reflexivity | reflexivity].
    + exact (Hstate "out_proj.weight").
    + exact (Hstate "out_proj.bias").
Defined.

(** C3 as stated fails when [load_checkpoint_heads] is on: the blob has a
    head "sst2" with 3 classes, the model has "sst2" with 2, and the upgrade
    returns with every persisted key of the head still in the blob, the
    3-class weight among them, and without a warning. *)
Lemma mismatched_head_kept_when_loading :
  let st := example_state_with_head (Some true) "sst2" 2 (sst2_blob 3) in
  let out := upgrade_state_dict_named no_children_upgrade "" st in
  persisted_dims "" (state_dict st) "sst2" = Some (3%N, 512%N)
  /\ (exists h, Py.get (classification_heads (self st)) "sst2" = Some h
                /\ out_features (out_proj h) = 2%N)
  /\ out.1 = inr tt
  /\ state_dict out.2 = sst2_blob 3
  /\ Py.get (state_dict out.2) "classification_heads.sst2.out_proj.weight"
     = Some (tensor [3%N; 512%N] 11)
  /\ List.filter is_warning (logged out.2) = [].
Proof.
  split; [reflexivity |]. split; [by eexists |].
  split; [reflexivity |]. split; [reflexivity |]. split; reflexivity.
Qed.



End ModelFacts.


(* ===================================================================== *)
(** * Facts about the forward pass *)
(* ===================================================================== *)

Module ForwardFacts.
Import Model Forward.

Section Kernels.

Variable T : Type.
Variable sentence_encoder : T -> option T -> bool -> list T.
Variable transpose01 : T -> T.
Variable index_rows : T -> T -> T.
Variable lm_dense lm_activation_fn lm_layer_norm lm_project : T -> T.
Variable sum_dim1 mean_dim1 first_token unsqueeze_last : T -> T.
Variable div : T -> T -> T.
Variable dropout : Q -> T -> T.
Variable linear : Linear -> T -> T.
Variable activation : string -> T -> T.

Local Abbreviation model_forward :=
  (forward T sentence_encoder transpose01 index_rows
           lm_dense lm_activation_fn lm_layer_norm lm_project
           sum_dim1 mean_dim1 first_token unsqueeze_last div dropout linear activation).
Local Abbreviation features_of :=
  (extract_features T sentence_encoder transpose01).
Local Abbreviation head_forward :=
  (SMLPClassificationHead_forward T sum_dim1 mean_dim1 first_token unsqueeze_last div
                                  dropout linear activation).

(** C10. With a [classification_head_name] the features-only path is
    taken whatever [features_only] the caller passed: the call equals the
    one with [features_only=True], the language-model head is not among
    the modules it runs, and when the encoder yields features, the first
    component returned is the named head applied to them (or the head's
    exception). *)
Theorem head_name_forces_features_only (m : SMLP_MLM_Model) (src_tokens : T)
    (features_only return_all_hiddens : bool) (name : string) (kwargs : Kwargs T)
    (h : SMLPClassificationHead) :
  Py.get (classification_heads m) name = Some h ->
  let out := model_forward m src_tokens features_only return_all_hiddens (Some name) kwargs in
  out = model_forward m src_tokens true return_all_hiddens (Some name) kwargs
  /\ (Call_lm_head ∉ out.2)
  /\ forall features extra,
       (features_of src_tokens (src_lengths T kwargs) return_all_hiddens).1
         = inr (features, extra) ->
       out.1 = match (head_forward name h features kwargs).1 with
               | inr x => inr (x, extra)
               | inl e => inl e
               end
       /\ out.2 = [Call_sentence_encoder; Call_classification_head name].
Proof.
  intros Hh out. subst out. split; [reflexivity |].
  unfold forward, RobertaEncoder_forward, extract_features, SMLPClassificationHead_forward.
  rewrite Hh. unfold fbind, called, fret, fraise. simpl.
  destruct (sentence_encoder src_tokens (src_lengths T kwargs) (negb return_all_hiddens))
    as [| s0 states]; simpl.
  - split; [| discriminate].
    intros [[=] | Hin%elem_of_nil]%elem_of_cons. done.
  - destruct (String.eqb (sen_rep_type h) "mp");
      [destruct (src_lengths T kwargs) | destruct (String.eqb (sen_rep_type h) "cls")];
      simpl; (split;
        [ intros Hin; repeat (apply elem_of_cons in Hin as [[=] | Hin]);
          by apply elem_of_nil in Hin
        | intros features extra [= <- <-]; split; reflexivity ]).
Qed.

End Kernels.

Lemma head_name_forces_features_only_witness :
  forward_example false = forward_example true
  /\ (Call_lm_head ∉ (forward_example false).2)
  /\ (forward_example false).1 = inr (7, None)
  /\ (forward_example false).2 = [Call_sentence_encoder; Call_classification_head "sst2"].
Proof.
  destruct (head_name_forces_features_only nat (fun src _ _ => [src]) (fun t => t) (fun t _ => t)
              S S S S (fun t => t) (fun t => t) (fun t => t) (fun t => t) (fun t _ => t)
              (fun _ t => t) (fun _ t => t) (fun _ t => t)
              (self (example_state_with_head None "sst2" 2 []))
              7 false false "sst2" {| masked_tokens := None; src_lengths := None |}
              (built_head (self (example_state None [])) 2 None) eq_refl)
    as (Heq & Hlm & Hhead).
  split; [exact Heq |]. split; [exact Hlm |].
  exact (Hhead 7 None eq_refl).
Defined.

End ForwardFacts.

(* ===================================================================== *)
(** * Further facts about the presets, and building the model *)
(* ===================================================================== *)

Module BuildFacts.
Import Arch ArchFacts Build.

Lemma base_is_lines args : base_architecture args = run base_lines args.
Proof. lines_refl. Qed.

Lemma base_lines_written k :
  existsb (String.eqb k) (dsts base_lines) = true -> k ∈ dsts base_lines.
Proof.
  generalize (dsts base_lines). intros l. induction l as [| x l IH]; simpl; [discriminate |].
  destruct (String.eqb_spec k x) as [-> | _]; [intros _; left | intros H; right; auto].
Qed.


(** An option the root preset does not write is as the caller left it. *)
Lemma base_leaves args k :
  existsb (String.eqb k) (dsts base_lines) = false ->
  base_architecture args !! k = args !! k.
Proof. intros Hk. rewrite base_is_lines. by apply run_lookup_unwritten, existsb_eqb_false. Qed.



(** X4. Every option the root preset defines is set in the record any
    registered preset resolves to, whatever the caller supplied. *)
Theorem resolve_sets_root_options (name : string) (args r : Namespace) (k : string) :
  resolve name args = Some r ->
  k ∈ dsts base_lines ->
  is_Some (r !! k).
Proof.
  intros Hr Hk. apply resolve_lines in Hr as (p & Hin & ->).
  destruct (proj1 (Forall_forall _ _) arch_lines_end_in_base _ Hin) as [own Hown].
  simpl in Hown. subst p. apply run_lookup_written.
  unfold dsts. rewrite map_app. apply elem_of_app. by right.
Qed.

Lemma resolve_sets_root_options_witness :
  is_Some (smlp_mlm_complex_architecture_imdb_gate ∅ !! "encoder_attention_heads").
Proof.
  apply (resolve_sets_root_options "smlp_mlm_complex_imdb_gate" ∅ _ "encoder_attention_heads").
  - reflexivity.
  - apply base_lines_written. vm_compute. reflexivity.
Defined.

(** X5. An option that no line of the preset (nor of the presets it calls)
    assigns is left as the caller gave it, set or unset: resolution adds
    nothing beyond the options its lines name. *)
Theorem resolve_leaves_other_options (name : string) (p : list Stmt) (args r : Namespace)
    (k : string) :
  (name, p) ∈ ARCH_LINES ->
  resolve name args = Some r ->
  k ∉ dsts p ->
  r !! k = args !! k.
Proof.
  intros Hin Hr Hk. rewrite (lines_resolve _ _ args Hin) in Hr. injection Hr as <-.
  by apply run_lookup_unwritten.
Qed.

(** The root preset leaves [sen_rep_type] unset when the caller did. *)
Lemma resolve_leaves_other_options_witness :
  base_architecture ∅ !! "sen_rep_type" = (∅ : Namespace) !! "sen_rep_type".
Proof.
  apply (resolve_leaves_other_options "smlp_mlm" base_lines ∅ _ "sen_rep_type").
  - left.
  - reflexivity.
  - apply existsb_eqb_false. vm_compute. reflexivity.
Defined.

(** ** The constructors *)






(** X7. [build_model] on a namespace with neither [max_positions] nor
    [tokens_per_sample] raises [AttributeError] for [tokens_per_sample],
    whatever else the namespace holds. *)
Theorem build_model_needs_length (args : Namespace) (pad len_dictionary : N) :
  args !! "max_positions" = None ->
  args !! "tokens_per_sample" = None ->
  build_model args pad len_dictionary = inl (AttributeError "tokens_per_sample").
Proof.
  intros Hmp Htok. unfold build_model, hasattr, attr.
  rewrite !base_leaves by (vm_compute; reflexivity).
  by rewrite Hmp, Htok.
Qed.

Lemma build_model_needs_length_witness :
  build_model {[ "encoder_layers" := VInt 6 ]} 1 50265
  = inl (AttributeError "tokens_per_sample").
Proof.
  apply (build_model_needs_length {[ "encoder_layers" := VInt 6 ]} 1 50265); reflexivity.
Defined.



End BuildFacts.

(* ===================================================================== *)
(** * Further facts about registration and the upgrade *)
(* ===================================================================== *)

Module ModelMore.
Import Model PyFacts ModelFacts Loaded.

(** ** Registration *)


Lemma filter_warning_infos lg :
  Forall (fun r => is_warning r = false) lg -> List.filter is_warning lg = [].
Proof. induction 1 as [| r lg Hr _ IH]; simpl; [done |]. by rewrite Hr. Qed.







(** ** What the upgrade never does *)

Lemma handle_self_disabled prefix acc k st :
  load_checkpoint_heads (args (self st)) <> Some true ->
  self (handle_head_key prefix acc k st).2 = self st.
Proof.
  intros Hflag. unfold handle_head_key.
  destruct (Py.startswith k (prefix +:+ "classification_heads.")); [| done]. simpl.
  unfold bind, sd_getitem, get_state_dict, size0, get_self, logger, ret, raise, add_logged, bind.
  destruct (Py.get (state_dict st) _) as [w1 |]; [| done].
  destruct (shape w1) as [| nc ?]; [done |].
  destruct (Py.get (state_dict st) _) as [w2 |]; [| done].
  destruct (shape w2) as [| id ?]; [done |].
  destruct (load_checkpoint_heads (args (self st))) as [[|] |]; [done | |];
    destruct (Py.get (classification_heads (self st)) _) as [h |]; simpl; try done;
    by destruct (_ || _).
Qed.

Lemma reconcile_self_disabled prefix ks acc st :
  load_checkpoint_heads (args (self st)) <> Some true ->
  self (for_acc ks acc (handle_head_key prefix) st).2 = self st.
Proof.
  revert acc st. induction ks as [| k ks IH]; intros acc st Hflag; [done |].
  simpl. unfold bind.
  pose proof (handle_self_disabled prefix acc k st Hflag) as Hk.
  destruct (handle_head_key prefix acc k st) as [[e | acc'] st1]; [exact Hk |].
  simpl in Hk. rewrite IH; [done |]. by rewrite Hk.
Qed.

(** X12. With [load_checkpoint_heads] off (unset or false) the upgrade of a
    dict never changes the model: its arguments, its heads and their
    parameters are the same afterwards, whether the upgrade returns or
    raises, and whatever the children's upgrade does to the blob. *)
Theorem upgrade_leaves_model (super : StateDict -> string -> StateDict)
    (name : string) (st : St) :
  NoDup (Py.keys (state_dict st)) ->
  load_checkpoint_heads (args (self st)) <> Some true ->
  self (upgrade_state_dict_named super name st).2 = self st.
Proof.
  intros Hnd Hflag.
  destruct (upgrade_unfold super name st Hnd) as (sd1 & _ & _ & ->).
  unfold reconcile_and_copy.
  set (st2 := set_state_dict st (super sd1 name)).
  pose proof (reconcile_self_disabled (prefix_of name) (Py.keys (state_dict st2)) [] st2 Hflag)
    as Hloop.
  destruct (for_acc _ _ _ st2) as [[e | dels] st3]; [exact Hloop |].
  pose proof (delete_loop_self dels st3) as [Hdel _].
  destruct (for_each dels sd_delitem st3) as [[e | []] st4]; simpl in Hdel.
  { simpl. by rewrite Hdel. }
  destruct (copy_loop (prefix_of name) (heads_state_dict (classification_heads (self st4))) st4)
    as (sd' & lg & -> & _).
  simpl. by rewrite Hdel.
Qed.

Lemma upgrade_leaves_model_witness :
  let st := example_state_with_head None "sst2" 2 (sst2_blob 3 ++ mnli_blob) in
  self (upgrade_state_dict_named no_children_upgrade "" st).2 = self st.
Proof.
  apply (upgrade_leaves_model no_children_upgrade ""
           (example_state_with_head None "sst2" 2 (sst2_blob 3 ++ mnli_blob))).
  - apply (bool_decide_unpack _). vm_compute. reflexivity.
  - discriminate.
Defined.

Lemma handle_enabled_acc prefix acc k st acc' st' :
  load_checkpoint_heads (args (self st)) = Some true ->
  handle_head_key prefix acc k st = (inr acc', st') ->
  acc' = acc /\ load_checkpoint_heads (args (self st')) = Some true.
Proof.
  intros Hflag. unfold handle_head_key.
  destruct (Py.startswith k (prefix +:+ "classification_heads."));
    [| intros [= <- <-]; done]. simpl.
  unfold bind, sd_getitem, get_state_dict, size0, get_self, logger, ret, raise, add_logged, bind.
  destruct (Py.get (state_dict st) _) as [w1 |]; [| discriminate].
  destruct (shape w1) as [| nc ?]; [discriminate |].
  destruct (Py.get (state_dict st) _) as [w2 |]; [| discriminate].
  destruct (shape w2) as [| id ?]; [discriminate |].
  rewrite Hflag.
  destruct (Py.get (classification_heads (self st)) _) as [h |]; [intros [= <- <-]; done |].
  destruct (ctor_ok (args (self st))) eqn:Hok.
  - rewrite register_returns by done. intros [= <- <-]. done.
  - destruct (register_raises
                (Py.split_dot_first
                   (Py.drop (String.length (prefix +:+ "classification_heads.")) k))
                nc (Some id) st Hok) as (st1 & -> & _). discriminate.
Qed.

Lemma reconcile_enabled_acc prefix ks acc st dels st' :
  load_checkpoint_heads (args (self st)) = Some true ->
  for_acc ks acc (handle_head_key prefix) st = (inr dels, st') ->
  dels = acc.
Proof.
  revert acc st. induction ks as [| k ks IH]; intros acc st Hflag.
  - by intros [= <- <-].
  - simpl. unfold bind.
    destruct (handle_head_key prefix acc k st) as [[e | acc'] st1] eqn:Hk; [discriminate |].
    destruct (handle_enabled_acc _ _ _ _ _ _ Hflag Hk) as [-> Hflag1].
    by apply IH.
Qed.

(** X13. With [load_checkpoint_heads] on, the upgrade of a dict drops
    nothing: every key of the blob under the classification-heads
    namespace is still there with its tensor afterwards, known head or
    not, matching dimensions or not, and whether the upgrade returns or
    raises. The children's upgrade is taken to leave the key alone. *)
Theorem upgrade_loading_drops_nothing (super : StateDict -> string -> StateDict)
    (name : string) (st : St) (k : string) (v : Tensor) :
  NoDup (Py.keys (state_dict st)) ->
  load_checkpoint_heads (args (self st)) = Some true ->
  head_key (prefix_of name) k = true ->
  Py.get (state_dict st) k = Some v ->
  (forall sd, Py.get (super sd name) k = Py.get sd k) ->
  Py.get (state_dict (upgrade_state_dict_named super name st).2) k = Some v.
Proof.
  intros Hnd Hflag Hk Hv Hsuper.
  destruct (upgrade_unfold super name st Hnd) as (sd1 & Hget & _ & ->).
  set (st2 := set_state_dict st (super sd1 name)).
  assert (Hv2 : Py.get (state_dict st2) k = Some v).
  { simpl. rewrite Hsuper, Hget, rename_spec_keys.
    by rewrite (head_key_not_legacy _ _ Hk), (head_key_not_encoder _ _ Hk). }
  unfold reconcile_and_copy.
  pose proof (reconcile_state_dict (prefix_of name) (Py.keys (state_dict st2)) [] st2) as Hsd.
  destruct (for_acc _ _ _ st2) as [[e | dels] st3] eqn:Hloop; cbn [snd] in Hsd.
  { cbn [snd]. by rewrite Hsd. }
  apply reconcile_enabled_acc in Hloop as ->; [| done].
  cbn [for_each]. unfold ret.
  destruct (copy_loop (prefix_of name) (heads_state_dict (classification_heads (self st3))) st3)
    as (sd' & lg & -> & _ & Hget').
  cbn [snd state_dict]. by rewrite Hget', Hsd, Hv2.
Qed.

Lemma upgrade_loading_drops_nothing_witness :
  let st := example_state_with_head (Some true) "sst2" 2 (sst2_blob 3 ++ headless_mnli) in
  Py.get (state_dict (upgrade_state_dict_named no_children_upgrade "" st).2)
         "classification_heads.sst2.out_proj.weight"
  = Some (tensor [3%N; 512%N] 11).
Proof.
  apply (upgrade_loading_drops_nothing no_children_upgrade ""
           (example_state_with_head (Some true) "sst2" 2 (sst2_blob 3 ++ headless_mnli))).
  - apply (bool_decide_unpack _). vm_compute. reflexivity.
  - reflexivity.
  - reflexivity.
  - reflexivity.
  - reflexivity.
Defined.

(** X14. When the upgrade of a dict returns, the blob is complete for the
    heads of the model as it then is: every entry of the heads' current
    state has its key, under the classification-heads namespace, in the
    blob. *)
Theorem upgrade_completes_heads (super : StateDict -> string -> StateDict)
    (name : string) (st : St) (k : string) (v : Tensor) :
  let out := upgrade_state_dict_named super name st in
  NoDup (Py.keys (state_dict st)) ->
  out.1 = inr tt ->
  Py.get (heads_state_dict (classification_heads (self out.2))) k = Some v ->
  is_Some (Py.get (state_dict out.2) (prefix_of name +:+ "classification_heads." +:+ k)).
Proof.
  intros out Hnd. subst out.
  destruct (upgrade_unfold super name st Hnd) as (sd1 & _ & _ & ->).
  unfold reconcile_and_copy.
  destruct (for_acc _ _ _ _) as [[e | dels] st3]; [discriminate |].
  destruct (for_each dels sd_delitem st3) as [[e | []] st4]; [discriminate |].
  destruct (copy_loop (prefix_of name) (heads_state_dict (classification_heads (self st4))) st4)
    as (sd' & lg & -> & _ & Hget).
  simpl. intros _ Hk. rewrite Hget.
  destruct (Py.get (state_dict st4) _); [by eexists |].
  rewrite get_heads_prefix, head_key_intro, drop_heads_prefix, Hk. by eexists.
Qed.

Lemma upgrade_completes_heads_witness :
  let st := example_state_with_head None "sst2" 2 collision_blob in
  is_Some (Py.get (state_dict (upgrade_state_dict_named no_children_upgrade "" st).2)
                  "classification_heads.sst2.dense.bias").
Proof.
  apply (upgrade_completes_heads no_children_upgrade ""
           (example_state_with_head None "sst2" 2 collision_blob)
           "sst2.dense.bias" (tensor [512%N] 0)).
  - apply (bool_decide_unpack _). vm_compute. reflexivity.
  - reflexivity.
  - reflexivity.
Defined.

(** X15. After the upgrade of a dict no key begins with the legacy prefix
    [decoder]: every such lookup finds nothing, whether the later steps
    return or raise. The children's upgrade is taken not to bring such a
    key back. *)
Theorem upgrade_leaves_no_legacy_key (super : StateDict -> string -> StateDict)
    (name : string) (st : St) (k : string) :
  NoDup (Py.keys (state_dict st)) ->
  (forall sd, Py.get sd k = None -> Py.get (super sd name) k = None) ->
  legacy (prefix_of name) k = true ->
  Py.get (state_dict (upgrade_state_dict_named super name st).2) k = None.
Proof.
  intros Hnd Hsuper Hk.
  destruct (upgrade_unfold super name st Hnd) as (sd1 & Hget & _ & ->).
  rewrite reconcile_and_copy_frame by by apply legacy_not_head_key.
  simpl. apply Hsuper. by rewrite Hget, rename_spec_keys, Hk.
Qed.

Lemma upgrade_leaves_no_legacy_key_witness :
  let st := example_state None
              (("decoder.sentence_encoder.layers.0.weight", tensor [4%N; 4%N] 3)
               :: collision_blob) in
  Py.get (state_dict (upgrade_state_dict_named no_children_upgrade "" st).2)
         "decoder.sentence_encoder.layers.0.weight" = None.
Proof.
  apply (upgrade_leaves_no_legacy_key no_children_upgrade ""
           (example_state None
              (("decoder.sentence_encoder.layers.0.weight", tensor [4%N; 4%N] 3)
               :: collision_blob))).
  - apply (bool_decide_unpack _). vm_compute. reflexivity.
  - intros sd Hsd. exact Hsd.
  - reflexivity.
Defined.

(** ** Loading what the model saved *)

Lemma known_head_of_key heads rest v :
  Forall dot_free (Py.keys heads) ->
  Py.get (heads_state_dict heads) rest = Some v ->
  is_Some (Py.get heads (Py.split_dot_first rest)).
Proof.
  intros Hfree Hv.
  destruct (Py.get heads (Py.split_dot_first rest)) eqn:Hh; [by eexists |].
  rewrite heads_state_dict_None in Hv by done. discriminate.
Qed.

Lemma own_head_entry prefix m sd hn h pk :
  valid_heads (classification_heads m) ->
  holds_own_heads prefix m sd ->
  Py.get (classification_heads m) hn = Some h ->
  Py.get sd (prefix +:+ "classification_heads." +:+ hn +:+ "." +:+ pk)
  = Py.get (head_state_dict h) pk.
Proof.
  intros Hvalid Hown Hh.
  rewrite Hown by apply head_key_intro.
  rewrite drop_heads_prefix. by apply heads_state_dict_Some.
Qed.

Lemma get_singleton {V} (k : string) (v : V) k' v' :
  Py.get [(k, v)] k' = Some v' -> v' = v.
Proof. simpl. destruct (String.eqb k k'); congruence. Qed.

Lemma own_heads_blob_holds prefix m : holds_own_heads prefix m (own_heads_blob prefix m).
Proof. intros k Hk. unfold own_heads_blob. by rewrite get_heads_prefix, Hk. Qed.

Lemma own_key_head prefix m sd1 k :
  Forall dot_free (Py.keys (classification_heads m)) ->
  (forall k, head_key prefix k = true ->
     Py.get sd1 k = Py.get (heads_state_dict (classification_heads m))
                           (Py.drop (String.length (prefix +:+ "classification_heads.")) k)) ->
  k ∈ Py.keys sd1 -> head_key prefix k = true ->
  is_Some (Py.get (classification_heads m) (head_name_of prefix k)).
Proof.
  intros Hfree Hown Hin Hk.
  apply get_keys in Hin as [v Hv]. rewrite Hown in Hv by done.
  by apply known_head_of_key in Hv.
Qed.

(** The second loop on head keys of known heads with the persisted
    dimensions: nothing happens. *)
Lemma reconcile_known prefix ks acc st :
  (forall k, k ∈ ks -> head_key prefix k = true ->
     exists h, Py.get (classification_heads (self st)) (head_name_of prefix k) = Some h
               /\ persisted_dims prefix (state_dict st) (head_name_of prefix k)
                  = Some (out_features (out_proj h), out_features (dense h))) ->
  for_acc ks acc (handle_head_key prefix) st = (inr acc, st).
Proof.
  induction ks as [| k ks IH]; intros Hks; [done |].
  simpl. unfold bind.
  assert (Hrest : for_acc ks acc (handle_head_key prefix) st = (inr acc, st)).
  { apply IH. intros k' Hin. apply Hks. by right. }
  destruct (head_key prefix k) eqn:Hk; [| by rewrite handle_other].
  destruct (Hks k) as (h & Hh & Hd); [by left | done |].
  rewrite (handle_present _ _ _ _ _ _ Hk Hd). cbv zeta. rewrite Hh, !N.eqb_refl.
  by destruct (load_checkpoint_heads (args (self st))) as [[|] |].
Qed.

(** X16. Round trip of the heads: a model handed a state dict that holds,
    under the classification-heads namespace, exactly the state of its own
    heads (plain linear layers, names without dots) upgrades it without an
    exception and without a warning; the model is unchanged and every key
    under the namespace reads as before, whatever [load_checkpoint_heads]
    says. The children's upgrade is taken to do nothing. *)
Theorem upgrade_own_heads (super : StateDict -> string -> StateDict)
    (name : string) (st : St) :
  let prefix := prefix_of name in
  let out := upgrade_state_dict_named super name st in
  children_idle super name ->
  NoDup (Py.keys (state_dict st)) ->
  valid_heads (classification_heads (self st)) ->
  heads_have_weights (classification_heads (self st)) ->
  holds_own_heads prefix (self st) (state_dict st) ->
  out.1 = inr tt
  /\ self out.2 = self st
  /\ List.filter is_warning (logged out.2) = List.filter is_warning (logged st)
  /\ forall k, head_key prefix k = true ->
       Py.get (state_dict out.2) k = Py.get (state_dict st) k.
Proof.
  intros prefix out Hidle Hnd Hvalid Hweights Hown. subst out.
  destruct (upgrade_unfold_idle super name st Hidle Hnd) as (sd1 & Hnd1 & Hget1 & _ & ->).
  fold prefix in Hget1 |- *.
  set (st2 := set_state_dict st sd1).
  unfold reconcile_and_copy. rewrite reconcile_known.
  - cbn [for_each]. unfold ret.
    destruct (copy_loop prefix (heads_state_dict (classification_heads (self st2))) st2)
      as (sd' & lg & -> & Hlg & Hget).
    cbn [fst snd self state_dict logged]. split; [done |]. split; [done |]. split.
    + rewrite List.filter_app, (filter_warning_infos lg Hlg). by rewrite app_nil_r.
    + intros k Hk. rewrite Hget. subst st2. cbn [state_dict set_state_dict self].
      rewrite get_heads_prefix, Hk, Hget1 by done.
      destruct (Py.get (state_dict st) k) eqn:Hv; [done |].
      by rewrite <- Hown, Hv.
  - intros k Hin Hk. subst st2. cbn [state_dict set_state_dict self] in *.
    destruct (own_key_head prefix (self st) sd1 k) as [h Hh]; [apply Hvalid | | done | done |].
    { intros k' Hk'. rewrite Hget1 by done. by apply Hown. }
    exists h. split; [done |].
    rewrite (persisted_dims_ext _ _ _ _ Hget1). unfold persisted_dims.
    destruct (Hweights _ _ Hh) as ((w1 & r1 & H1 & Hs1) & (w2 & r2 & H2 & Hs2)).
    change (head_name_of prefix k +:+ ".out_proj.weight")
      with (head_name_of prefix k +:+ "." +:+ "out_proj.weight").
    change (head_name_of prefix k +:+ ".dense.weight")
      with (head_name_of prefix k +:+ "." +:+ "dense.weight").
    rewrite !(own_head_entry prefix (self st) (state_dict st) _ h) by done.
    by rewrite H1, H2, Hs1, Hs2.
Qed.

Lemma upgrade_own_heads_witness :
  let st := saved_state (example_args None) "sst2" 2 in
  let out := upgrade_state_dict_named no_children_upgrade "" st in
  out.1 = inr tt
  /\ self out.2 = self st
  /\ List.filter is_warning (logged out.2) = List.filter is_warning (logged st)
  /\ forall k, head_key "" k = true ->
       Py.get (state_dict out.2) k = Py.get (state_dict st) k.
Proof.
  apply (upgrade_own_heads no_children_upgrade "" (saved_state (example_args None) "sst2" 2)).
  - intros sd. reflexivity.
  - apply (bool_decide_unpack _). vm_compute. reflexivity.
  - split.
    + apply NoDup_singleton.
    + by repeat constructor.
  - intros hn h Hh. apply get_singleton in Hh as ->.
    split; eexists _, _; split; reflexivity.
  - apply (own_heads_blob_holds "").
Defined.

Lemma handle_no_out_proj prefix acc k st :
  head_key prefix k = true ->
  Py.get (state_dict st)
         (prefix +:+ "classification_heads." +:+ head_name_of prefix k +:+ ".out_proj.weight")
  = None ->
  handle_head_key prefix acc k st
  = (inl (KeyError (prefix +:+ "classification_heads." +:+ head_name_of prefix k
                    +:+ ".out_proj.weight")), st).
Proof.
  unfold handle_head_key, head_key, head_name_of.
  intros -> Hmiss. simpl.
  unfold bind, sd_getitem, get_state_dict, size0, get_self, logger, ret, raise, add_logged, bind.
  by rewrite Hmiss.
Qed.

Lemma reconcile_first_missing prefix ks acc st k0 :
  (forall k, k ∈ ks -> head_key prefix k = true ->
     Py.get (state_dict st)
            (prefix +:+ "classification_heads." +:+ head_name_of prefix k +:+ ".out_proj.weight")
     = None) ->
  k0 ∈ ks -> head_key prefix k0 = true ->
  exists k1,
    k1 ∈ ks /\ head_key prefix k1 = true
    /\ for_acc ks acc (handle_head_key prefix) st
       = (inl (KeyError (prefix +:+ "classification_heads." +:+ head_name_of prefix k1
                         +:+ ".out_proj.weight")), st).
Proof.
  induction ks as [| k ks IH]; intros Hks Hin Hk0; [by apply elem_of_nil in Hin |].
  simpl. unfold bind.
  destruct (head_key prefix k) eqn:Hk.
  - exists k. split; [by left |]. split; [done |].
    rewrite handle_no_out_proj; [done | done |]. apply Hks; [by left | done].
  - rewrite handle_other by done.
    apply elem_of_cons in Hin as [-> | Hin]; [congruence |].
    destruct IH as (k1 & Hin1 & Hk1 & ->); [| done | done |].
    { intros k' Hin'. apply Hks. by right. }
    exists k1. split; [by right | done].
Qed.

Lemma spectral_head_no_weight h oid l :
  out_proj h = spectral_norm oid l ->
  Py.get (head_state_dict h) "out_proj.weight" = None.
Proof.
  intros Hsn. unfold head_state_dict. rewrite get_app, Hsn.
  rewrite get_map_prefix_None by done.
  change "out_proj.weight" with ("out_proj." +:+ "weight").
  by rewrite get_map_prefix.
Qed.

(** X17. A model whose heads are spectral-normalised cannot take back the
    state it saves: [torch.nn.utils.spectral_norm] keeps the weight under
    [out_proj.weight_orig], the upgrade asks the state dict for
    [out_proj.weight] of the first head key it meets, and raises
    [KeyError]. The model is left unchanged. The children's upgrade is
    taken to do nothing. *)
Theorem upgrade_own_spectral_heads_raises (super : StateDict -> string -> StateDict)
    (name : string) (st : St) (k0 : string) :
  let prefix := prefix_of name in
  let out := upgrade_state_dict_named super name st in
  children_idle super name ->
  NoDup (Py.keys (state_dict st)) ->
  valid_heads (classification_heads (self st)) ->
  spectral_heads (classification_heads (self st)) ->
  holds_own_heads prefix (self st) (state_dict st) ->
  k0 ∈ Py.keys (state_dict st) -> head_key prefix k0 = true ->
  exists hn,
    is_Some (Py.get (classification_heads (self st)) hn)
    /\ out.1 = inl (KeyError (prefix +:+ "classification_heads." +:+ hn +:+ ".out_proj.weight"))
    /\ self out.2 = self st.
Proof.
  intros prefix out Hidle Hnd Hvalid Hspectral Hown Hin0 Hk0. subst out.
  destruct (upgrade_unfold_idle super name st Hidle Hnd) as (sd1 & Hnd1 & Hget1 & _ & ->).
  fold prefix in Hget1 |- *.
  set (st2 := set_state_dict st sd1).
  assert (Hown1 : forall k, head_key prefix k = true ->
            Py.get sd1 k = Py.get (heads_state_dict (classification_heads (self st)))
                             (Py.drop (String.length (prefix +:+ "classification_heads.")) k)).
  { intros k Hk. rewrite Hget1 by done. by apply Hown. }
  destruct (reconcile_first_missing prefix (Py.keys (state_dict st2)) [] st2 k0)
    as (k1 & Hin1 & Hk1 & Hloop).
  - intros k Hin Hk. subst st2. cbn [state_dict set_state_dict] in *.
    destruct (own_key_head prefix (self st) sd1 k) as [h Hh]; [apply Hvalid | done .. |].
    destruct (Hspectral _ _ Hh) as (oid & l & Hsn).
    rewrite Hget1 by apply head_key_intro.
    change (head_name_of prefix k +:+ ".out_proj.weight")
      with (head_name_of prefix k +:+ "." +:+ "out_proj.weight").
    rewrite (own_head_entry prefix (self st) (state_dict st) _ h) by done.
    by apply (spectral_head_no_weight h oid l).
  - subst st2. cbn [state_dict set_state_dict]. apply get_keys.
    rewrite Hget1 by done. by apply get_keys.
  - done.
  - exists (head_name_of prefix k1). split.
    + subst st2. cbn [state_dict set_state_dict] in Hin1.
      by apply (own_key_head prefix (self st) sd1 k1); [apply Hvalid | ..].
    + unfold reconcile_and_copy. by rewrite Hloop.
Qed.

Lemma upgrade_own_spectral_heads_raises_witness :
  let st := saved_state spectral_args "sst2" 2 in
  let out := upgrade_state_dict_named no_children_upgrade "" st in
  exists hn,
    is_Some (Py.get (classification_heads (self st)) hn)
    /\ out.1 = inl (KeyError ("" +:+ "classification_heads." +:+ hn +:+ ".out_proj.weight"))
    /\ self out.2 = self st.
Proof.
  apply (upgrade_own_spectral_heads_raises no_children_upgrade ""
           (saved_state spectral_args "sst2" 2)
           "classification_heads.sst2.dense.weight").
  - intros sd. reflexivity.
  - apply (bool_decide_unpack _). vm_compute. reflexivity.
  - split.
    + apply NoDup_singleton.
    + by repeat constructor.
  - intros hn h Hh. apply get_singleton in Hh as ->. by eexists _, _.
  - apply (own_heads_blob_holds "").
  - apply (bool_decide_unpack _). vm_compute. reflexivity.
  - reflexivity.
Defined.

End ModelMore.

(* ===================================================================== *)
(** * Further facts about the forward pass *)
(* ===================================================================== *)

Module ForwardMore.
Import Model Forward PyFacts ModelFacts.

Section Kernels.

Variable T : Type.
Variable sentence_encoder : T -> option T -> bool -> list T.
Variable transpose01 : T -> T.
Variable index_rows : T -> T -> T.
Variable lm_dense lm_activation_fn lm_layer_norm lm_project : T -> T.
Variable sum_dim1 mean_dim1 first_token unsqueeze_last : T -> T.
Variable div : T -> T -> T.
Variable dropout : Q -> T -> T.
Variable linear : Linear -> T -> T.
Variable activation : string -> T -> T.

Local Abbreviation model_forward :=
  (forward T sentence_encoder transpose01 index_rows
           lm_dense lm_activation_fn lm_layer_norm lm_project
           sum_dim1 mean_dim1 first_token unsqueeze_last div dropout linear activation).

(** X18. Without a head name, the forward pass runs the sentence encoder
    and, unless [features_only] is set, the language-model head, and no
    classification head. It returns the first inner state, transposed;
    with the language-model head, its rows at [masked_tokens] when that
    keyword is given, sent through dense, activation, layer norm and the
    output projection. The inner states are returned only with
    [return_all_hiddens]. *)
Theorem forward_without_head (m : SMLP_MLM_Model) (src_tokens : T)
    (features_only return_all_hiddens : bool) (kwargs : Kwargs T) (s0 : T) (states : list T) :
  sentence_encoder src_tokens (src_lengths T kwargs) (negb return_all_hiddens) = s0 :: states ->
  let features := transpose01 s0 in
  let selected := match masked_tokens T kwargs with
                  | Some mt => index_rows features mt
                  | None => features
                  end in
  model_forward m src_tokens features_only return_all_hiddens None kwargs
  = (inr (if features_only then features
          else lm_project (lm_layer_norm (lm_activation_fn (lm_dense selected))),
          if return_all_hiddens then Some (s0 :: states) else None),
     if features_only then [Call_sentence_encoder]
     else [Call_sentence_encoder; Call_lm_head]).
Proof.
  intros Hs. unfold forward, RobertaEncoder_forward, extract_features, output_layer,
    SMLPLMHead_forward.
  rewrite Hs. unfold fbind, called, fret. simpl.
  by destruct features_only.
Qed.

(** X19. A head name the model has no head for makes the forward pass
    raise [KeyError] with that name, after the sentence encoder has run:
    the lookup comes after the encoder, and neither the language-model head
    nor a classification head runs. *)
Theorem forward_unknown_head_raises (m : SMLP_MLM_Model) (src_tokens : T)
    (features_only return_all_hiddens : bool) (name : string) (kwargs : Kwargs T) :
  Py.get (classification_heads m) name = None ->
  sentence_encoder src_tokens (src_lengths T kwargs) (negb return_all_hiddens) <> [] ->
  model_forward m src_tokens features_only return_all_hiddens (Some name) kwargs
  = (inl (KeyError name), [Call_sentence_encoder]).
Proof.
  intros Hnone Hs. unfold forward, RobertaEncoder_forward, extract_features.
  rewrite Hnone.
  destruct (sentence_encoder src_tokens (src_lengths T kwargs) (negb return_all_hiddens));
    [done |].
  reflexivity.
Qed.


End Kernels.

Lemma forward_without_head_witness :
  forward nat (fun src _ _ => [src]) (fun t => t) (fun t mt => t + mt)
          S S S S (fun t => t) (fun t => t) (fun t => t) (fun t => t) (fun t _ => t)
          (fun _ t => t) (fun _ t => t) (fun _ t => t)
          (self (example_state None []))
          7 false true None {| masked_tokens := Some 1; src_lengths := None |}
  = (inr (12, Some [7]), [Call_sentence_encoder; Call_lm_head]).
Proof.
  exact (forward_without_head nat (fun src _ _ => [src]) (fun t => t) (fun t mt => t + mt)
           S S S S (fun t => t) (fun t => t) (fun t => t) (fun t => t) (fun t _ => t)
           (fun _ t => t) (fun _ t => t) (fun _ t => t)
           (self (example_state None []))
           7 false true {| masked_tokens := Some 1; src_lengths := None |} 7 [] eq_refl).
Defined.

Lemma forward_unknown_head_raises_witness :
  forward nat (fun src _ _ => [src]) (fun t => t) (fun t _ => t)
          S S S S (fun t => t) (fun t => t) (fun t => t) (fun t => t) (fun t _ => t)
          (fun _ t => t) (fun _ t => t) (fun _ t => t)
          (self (example_state_with_head None "sst2" 2 []))
          7 false false (Some "mnli") {| masked_tokens := None; src_lengths := None |}
  = (inl (KeyError "mnli"), [Call_sentence_encoder]).
Proof.
  apply (forward_unknown_head_raises nat (fun src _ _ => [src]) (fun t => t) (fun t _ => t)
           S S S S (fun t => t) (fun t => t) (fun t => t) (fun t => t) (fun t _ => t)
           (fun _ t => t) (fun _ t => t) (fun _ t => t)
           (self (example_state_with_head None "sst2" 2 []))
           7 false false "mnli" {| masked_tokens := None; src_lengths := None |}).
  - reflexivity.
  - discriminate.
Defined.


End ForwardMore.
